(** * Attack runtime study: expected time until first success

    A shallow embedding of
    [pypuf/studies/breaking_lightweight_secure/attack_runtime.py]:
    the duration helpers [time_to_string] and [round_time], the table
    generator [AttackRuntimeStudy.gen_table] and the experiment list
    [AttackRuntimeStudy.experiments].

    Numbers.  Python integers are [Z].  Python floats (the [accuracy] and
    [measured_time] columns, the means and the durations computed from
    them) are exact rationals [Q], compared with [==]; the one float that
    is not a number, the [nan] pandas returns for the mean of an empty
    Series, is kept apart in [pyfloat].  Rounding error of binary64 and the
    magnitude limit of [datetime.timedelta] are outside the model. *)

From Stdlib Require Import ZArith QArith Qround Lia Bool List.
From Stdlib Require Import Ascii String Numbers.DecimalString.
Import ListNotations.

#[local] Open Scope string_scope.
#[local] Open Scope Z_scope.

(** ** Python values and exceptions *)

Inductive exn : Type :=
| ZeroDivisionError
| ValueError
| KeyError.

Inductive result (A : Type) : Type :=
| Ok (a : A)
| Raise (e : exn).

Arguments Ok {A} a.
Arguments Raise {A} e.

Definition bind {A B : Type} (r : result A) (k : A -> result B) : result B :=
  match r with
  | Ok a => k a
  | Raise e => Raise e
  end.

Notation "x <- r ;; k" := (bind r (fun x => k))
  (at level 61, r at next level, right associativity).

(** A float is a number or [nan]. *)
Inductive pyfloat : Type :=
| Fin (q : Q)
| NaN.

Definition fadd (x y : pyfloat) : pyfloat :=
  match x, y with
  | Fin a, Fin b => Fin (a + b)
  | _, _ => NaN
  end.

Definition fmul (x y : pyfloat) : pyfloat :=
  match x, y with
  | Fin a, Fin b => Fin (a * b)
  | _, _ => NaN
  end.

(** [a > b] on numbers. *)
Definition Qgtb (a b : Q) : bool := negb (Qle_bool a b).

(** [a / b] on two ints: true division, [ZeroDivisionError] when [b] is 0. *)
Definition int_truediv (a b : Z) : result Q :=
  if b =? 0 then Raise ZeroDivisionError else Ok (inject_Z a / inject_Z b)%Q.

(** [a / x] on an int and a float. *)
Definition float_truediv (a : Z) (x : Q) : result Q :=
  if Qeq_bool x 0 then Raise ZeroDivisionError else Ok (inject_Z a / x)%Q.

(** [x // u] on a float and an int: the floor of the quotient. *)
Definition floordiv (x : Q) (u : Z) : Q := inject_Z (Qfloor (x / inject_Z u)).

(** [round(x)] with one argument: to the nearest int, ties to the even one. *)
Definition py_round (x : Q) : Z :=
  let f := Qfloor x in
  match (x - inject_Z f ?= 1 # 2)%Q with
  | Lt => f
  | Gt => f + 1
  | Eq => if Z.even f then f else f + 1
  end.

(** ** printf-style conversions *)

Definition str_of_int (z : Z) : string := NilEmpty.string_of_int (Z.to_int z).

Fixpoint fill (c : ascii) (n : nat) : string :=
  match n with
  | O => EmptyString
  | S n' => String c (fill c n')
  end.

(** ['%i' % z] *)
Definition fmt_i (z : Z) : string := str_of_int z.

(** ['%2i' % z]: right-aligned in a field of two, padded with blanks. *)
Definition fmt_2i (z : Z) : string :=
  let s := str_of_int z in fill " " (2 - String.length s) ++ s.

(** ['%02i' % z]: padded to a field of two with zeros after the sign. *)
Definition fmt_02i (z : Z) : string :=
  if z <? 0
  then let s := str_of_int (- z) in "-" ++ fill "0" (1 - String.length s) ++ s
  else let s := str_of_int z in fill "0" (2 - String.length s) ++ s.

(** The decimal digit [d] as a character. *)
Definition digit (d : Z) : ascii := ascii_of_nat (48 + Z.to_nat d).

(** ** datetime.timedelta *)

Record timedelta : Type := mk_timedelta {
  days : Z;
  seconds : Z;
  microseconds : Z
}.

(** The normal form every [timedelta] object is kept in. *)
Definition normalized (d : timedelta) : Prop :=
  0 <= seconds d < 86400 /\ 0 <= microseconds d < 1000000.

(** [timedelta(seconds=s)]: [s] is rounded to the nearest microsecond, ties
    to even, and split into days, seconds and microseconds. *)
Definition timedelta_seconds (s : Q) : timedelta :=
  let us := py_round (s * 1000000) in
  {| days := us / 86400000000;
     seconds := (us mod 86400000000) / 1000000;
     microseconds := us mod 1000000 |}.

Definition total_seconds (d : timedelta) : Q :=
  (inject_Z ((days d * 86400 + seconds d) * 1000000 + microseconds d)
   / 1000000)%Q.

(** ** time_to_string and round_time *)

(** [round(delta.days)] is [delta.days]: [round] of an int is that int. *)
Definition time_to_string (delta : timedelta) : string :=
  if Qgtb (total_seconds delta) (inject_Z (4 * 24 * 60 ^ 2))
  then fmt_i (days delta) ++ " days"
  else
    let hours := seconds delta / 3600 in
    if 24 * days delta + hours =? 0
    then
      let minutes := (seconds delta - 3600 * hours) / 60 in
      let seconds := (seconds delta - 3600 * hours - 60 * minutes) / 1 in
      fmt_2i minutes ++ "m " ++ fmt_02i seconds ++ "s"
    else
      let minutes :=
        py_round (inject_Z (seconds delta - 3600 * hours) / 60)%Q in
      fmt_2i (24 * days delta + hours) ++ "h " ++ fmt_02i minutes ++ "m".

Definition units : list Z := [4 * 24 * 60 ^ 2; 1].

Fixpoint round_time_loop (us : list Z) (seconds : Q) : Q :=
  match us with
  | [] => seconds
  | u :: us' =>
      if Qgtb seconds (inject_Z u)
      then (floordiv seconds u * inject_Z u)%Q
      else round_time_loop us' seconds
  end.

Definition round_time (seconds : Q) : Q := round_time_loop units seconds.

(** [round_time] on a float that may be [nan]: every test [nan > u] is
    false, so [nan] comes back unchanged. *)
Definition round_time_f (seconds : pyfloat) : pyfloat :=
  match seconds with
  | Fin q => Fin (round_time q)
  | NaN => NaN
  end.

(** [timedelta(seconds=x)] on a float; [nan] is refused with [ValueError]. *)
Definition timedelta_f (x : pyfloat) : result timedelta :=
  match x with
  | Fin q => Ok (timedelta_seconds q)
  | NaN => Raise ValueError
  end.

(** ** Static data of the study *)

Definition NICE_ATTACK_NAMES : list (string * string) :=
  [("lr", "LR"); ("corr", "Correlation Attack")].

(** [LTFArray.transform_atf.__name__] and its siblings are the names the
    methods are defined under. *)
Definition transform_atf : string := "transform_atf".
Definition transform_lightweight_secure : string :=
  "transform_lightweight_secure".
Definition transform_fixed_permutation : string :=
  "transform_fixed_permutation".
Definition combiner_xor : string := "combiner_xor".

Definition NICE_TRANSFORM_NAMES : list (string * string) :=
  [(transform_atf, "Classic");
   (transform_lightweight_secure, "Lightweight Secure");
   (transform_fixed_permutation, "Permutation-Based")].

Record TableEntryParameters : Type := mk_entry {
  tep_n : Z;
  tep_k : Z;
  tep_N : Z;
  plot_layout : option (Z * Z * Z);
  label : string
}.

Definition SAMPLES_PER_ENTRY : nat := 1000.

Definition PARAMETERS : list TableEntryParameters :=
  [mk_entry 64 5 300000 (Some (2, 2, 1))
     "Perm. Index. Dist. (n=64; k=5; 300,000 CRPs)";
   mk_entry 64 6 1000000 (Some (2, 2, 2))
     "Perm. Index. Dist. (n=64; k=6; 1,000,000 CRPs)";
   mk_entry 64 7 2000000 None EmptyString;
   mk_entry 128 4 1000000 (Some (2, 2, 3))
     "Perm. Index. Dist. (n=128; k=4; 2,000,000 CRPs)";
   mk_entry 128 5 2000000 (Some (2, 2, 4))
     "Perm. Index. Dist. (n=128; k=5; 2,000,000 CRPs)"].

Definition TRANSFORMATIONS : list string :=
  [transform_atf; transform_lightweight_secure; transform_fixed_permutation].

Definition success_threshold : Q := 98 # 100.

(** ** The result table handed to gen_table *)

(** One row of the [results] DataFrame, with the columns [gen_table] reads. *)
Record row : Type := mk_row {
  row_n : Z;
  row_k : Z;
  row_N : Z;
  row_transformation : string;
  row_experiment : string;
  row_accuracy : Q;
  row_measured_time : Q
}.

Definition DataFrame : Type := list row.

Definition len {A : Type} (l : list A) : Z := Z.of_nat (List.length l).

Definition empty {A : Type} (l : list A) : bool :=
  match l with
  | [] => true
  | _ :: _ => false
  end.

Definition Qsum (l : list Q) : Q := fold_right Qplus 0%Q l.

(** [Series.mean()]: [nan] on an empty Series. *)
Definition mean (l : list Q) : pyfloat :=
  match l with
  | [] => NaN
  | _ :: _ => Fin (Qsum l / inject_Z (len l))
  end.

Definition measured_time (df : DataFrame) : list Q := map row_measured_time df.

(** [d[key]] on a dict with string keys; a missing key raises. *)
Fixpoint getitem (d : list (string * string)) (key : string) : result string :=
  match d with
  | [] => Raise KeyError
  | (k, v) :: d' => if String.eqb k key then Ok v else getitem d' key
  end.

(** [sep.join(l)] *)
Fixpoint join (sep : string) (l : list string) : string :=
  match l with
  | [] => EmptyString
  | [s] => s
  | s :: l' => s ++ sep ++ join sep l'
  end.

Definition tab : string := String (ascii_of_nat 9) EmptyString.
Definition nl : string := String (ascii_of_nat 10) EmptyString.

(** ['{:d}'.format(z)] *)
Definition fmt_d (z : Z) : string := str_of_int z.

(** Commas between groups of three digits, counted from the right; [s] is
    the digit string reversed and [i] the number of digits already passed. *)
Fixpoint group3 (s : list ascii) (i : nat) (acc : string) : string :=
  match s with
  | [] => acc
  | c :: s' =>
      let acc' := String c acc in
      match s' with
      | [] => acc'
      | _ :: _ =>
          if Nat.eqb (Nat.modulo (S i) 3) 0
          then group3 s' (S i) (String "," acc')
          else group3 s' (S i) acc'
      end
  end.

(** ['{:,d}'.format(z)] *)
Definition fmt_comma_d (z : Z) : string :=
  let digits := rev (list_ascii_of_string (str_of_int (Z.abs z))) in
  (if z <? 0 then "-" else EmptyString) ++ group3 digits 0 EmptyString.

(** ** gen_table *)

(** Lines 140 to 145: the rows of one table cell. *)
Definition select (results : DataFrame) (p : TableEntryParameters)
    (attack transformation : string) : DataFrame :=
  let sel :=
    filter (fun r => (row_n r =? tep_n p) && (row_k r =? tep_k p)
                     && (row_N r =? tep_N p)) results in
  if String.eqb attack "corr"
  then filter (fun r =>
         String.eqb (row_experiment r) "ExperimentCorrelationAttack") sel
  else filter (fun r =>
         String.eqb (row_transformation r) transformation
         && String.eqb (row_experiment r) "ExperimentLogisticRegression") sel.

Definition successful_runs (threshold : Q) (sel : DataFrame) : DataFrame :=
  filter (fun r => Qgtb (row_accuracy r) threshold) sel.

Definition failed_runs (threshold : Q) (sel : DataFrame) : DataFrame :=
  filter (fun r => Qle_bool (row_accuracy r) threshold) sel.

(** Lines 149 to 161: [success_rate] and [expected_time_till_success] of a
    cell. *)
Definition time_till_success (threshold : Q) (sel : DataFrame)
    : result (Q * pyfloat) :=
  let successful_runs := successful_runs threshold sel in
  let failed_runs := failed_runs threshold sel in
  success_rate <- int_truediv (len successful_runs) (len sel) ;;
  let avg_wall_time := mean (measured_time sel) in
  let avg_no_success_wall_time :=
    if negb (empty failed_runs) then mean (measured_time failed_runs)
    else Fin 0 in
  if Qgtb success_rate 0
  then
    let avg_success_wall_time := mean (measured_time successful_runs) in
    inverse <- float_truediv 1 success_rate ;;
    let expected_tries_till_success := Qceiling inverse in
    Ok (success_rate,
        fadd (fmul (Fin (inject_Z (expected_tries_till_success - 1)))
                   avg_no_success_wall_time)
             avg_success_wall_time)
  else
    Ok (success_rate, fmul avg_wall_time (Fin (inject_Z (len sel)))).

(** Lines 163 to 170: the text of a cell that has data. *)
Definition column_entry (success_rate : Q)
    (expected_time_till_success : pyfloat) : result string :=
  let marker := EmptyString in
  if Qgtb success_rate 0
  then
    delta <- timedelta_f (round_time_f expected_time_till_success) ;;
    Ok (time_to_string delta ++ marker)
  else
    delta <- timedelta_f (round_time_f expected_time_till_success) ;;
    Ok ("(" ++ time_to_string delta ++ ")${}^\ast$" ++ marker).

(** One turn of the loop over [columns]: the string appended to
    [column_latex]. *)
Definition cell (threshold : Q) (results : DataFrame)
    (p : TableEntryParameters) (column : string * string) : result string :=
  let '(attack, transformation) := column in
  let sel := select results p attack transformation in
  if empty sel
  then Ok "no data yet"
  else
    est <- time_till_success threshold sel ;;
    column_entry (fst est) (snd est).

Fixpoint columns_loop (threshold : Q) (results : DataFrame)
    (p : TableEntryParameters) (columns : list (string * string))
    (column_latex : list string) : result (list string) :=
  match columns with
  | [] => Ok column_latex
  | column :: columns' =>
      entry <- cell threshold results p column ;;
      columns_loop threshold results p columns' (column_latex ++ [entry])%list
  end.

Fixpoint rows_loop (threshold : Q) (results : DataFrame)
    (columns : list (string * string)) (ps : list TableEntryParameters)
    (latex : string) : result string :=
  match ps with
  | [] => Ok latex
  | p :: ps' =>
      let latex1 :=
        latex ++ "  " ++ fmt_d (tep_n p) ++ "&" ++ fmt_d (tep_k p) ++ "&"
              ++ fmt_comma_d (tep_N p) ++ "&" ++ tab ++ tab in
      column_latex <- columns_loop threshold results p columns [] ;;
      let latex2 := latex1 ++ join ("&" ++ tab ++ tab) column_latex in
      rows_loop threshold results columns ps' (latex2 ++ "\\" ++ nl)
  end.

(** [[f(x) for x in l]] where [f] may raise. *)
Fixpoint comprehension {A B : Type} (f : A -> result B) (l : list A)
    : result (list B) :=
  match l with
  | [] => Ok []
  | x :: l' => y <- f x ;; ys <- comprehension f l' ;; Ok (y :: ys)
  end.

Definition columns : list (string * string) :=
  [("lr", transform_atf);
   ("lr", transform_lightweight_secure);
   ("corr", transform_lightweight_secure);
   ("lr", transform_fixed_permutation)].

(** The table over any configuration list, column list and threshold. *)
Definition gen_table_of (threshold : Q) (ps : list TableEntryParameters)
    (columns : list (string * string)) (results : DataFrame) : result string :=
  let latex :=
    "\begin{tabular}{rrr" ++ fill "c" (List.length columns) ++ "}" ++ nl
    ++ "  \toprule" ++ nl in
  let latex := latex ++ "  &&&" in
  attacks <- comprehension
    (fun c => a <- getitem NICE_ATTACK_NAMES (fst c) ;; Ok (a ++ " on"))
    columns ;;
  let latex := latex ++ join ("&" ++ tab ++ tab) attacks in
  let latex := latex ++ "\\" in
  let latex := latex ++ nl in
  let latex := latex ++ "  $n$ & $k$ & \# CRPs &" ++ tab ++ tab in
  transforms <- comprehension
    (fun c => getitem NICE_TRANSFORM_NAMES (snd c)) columns ;;
  let latex := latex ++ join ("&" ++ tab ++ tab) transforms in
  let latex := latex ++ "\\" in
  let latex := latex ++ nl ++ "  \midrule" ++ nl in
  latex <- rows_loop threshold results columns ps latex ;;
  let latex := latex ++ "  \bottomrule" ++ nl in
  let latex := latex ++ "\end{tabular}" in
  Ok latex.

(** [AttackRuntimeStudy.gen_table]: the text written to the table file. *)
Definition gen_table (results : DataFrame) : result string :=
  gen_table_of success_threshold PARAMETERS columns results.

(** ** experiments *)

(** The keyword arguments shared by both parameter tuples. *)
Record common_parameters : Type := mk_common {
  cp_n : Z;
  cp_k : Z;
  cp_N : Z;
  seed_instance : Z;
  seed_model : Z;
  seed_challenge : Z;
  seed_distance : Z;
  mini_batch_size : Z;
  convergence_decimals : Z;
  shuffle : bool
}.

(** An experiment object: its log prefix and its parameter tuple.  The two
    experiment classes and their [Parameters] tuples live in other modules;
    they are taken as plain constructors of the arguments given here. *)
Inductive Experiment : Type :=
| ExperimentCorrelationAttack (progress_log_prefix : string)
    (common : common_parameters) (lr_iteration_limit : Z)
| ExperimentLogisticRegression (progress_log_prefix : string)
    (common : common_parameters) (transformation : string)
    (combiner : string).

Definition common_of (e : Experiment) : common_parameters :=
  match e with
  | ExperimentCorrelationAttack _ c _ => c
  | ExperimentLogisticRegression _ c _ _ => c
  end.

Section Experiments.

(** [self.name()] *)
Variable name : string.

Definition common (p : TableEntryParameters) (i : Z) : common_parameters :=
  {| cp_n := tep_n p;
     cp_k := tep_k p;
     cp_N := tep_N p;
     seed_instance := 314159 + i;
     seed_model := 265358 + i;
     seed_challenge := 979323 + i;
     seed_distance := 846264 + i;
     mini_batch_size := 0;
     convergence_decimals := 2;
     shuffle := false |}.

(** The loop over [TRANSFORMATIONS]. *)
Fixpoint transforms_loop (c : common_parameters) (ts : list string)
    (experiments : list Experiment) : list Experiment :=
  match ts with
  | [] => experiments
  | transform :: ts' =>
      let ex := ExperimentLogisticRegression name c transform combiner_xor in
      transforms_loop c ts' (experiments ++ [ex])%list
  end.

(** The loop over [PARAMETERS]. *)
Fixpoint parameters_loop (i : Z) (ps : list TableEntryParameters)
    (experiments : list Experiment) : list Experiment :=
  match ps with
  | [] => experiments
  | p :: ps' =>
      let common_parameters := common p i in
      let ex := ExperimentCorrelationAttack name common_parameters 1000 in
      let experiments := (experiments ++ [ex])%list in
      let experiments :=
        transforms_loop common_parameters TRANSFORMATIONS experiments in
      parameters_loop i ps' experiments
  end.

(** The loop over [range(samples)], from index [i] on. *)
Fixpoint samples_loop (count : nat) (i : Z) (ps : list TableEntryParameters)
    (experiments : list Experiment) : list Experiment :=
  match count with
  | O => experiments
  | S count' =>
      samples_loop count' (i + 1) ps (parameters_loop i ps experiments)
  end.

(** The experiment list over any sample count and configuration list. *)
Definition experiments_of (samples : nat) (ps : list TableEntryParameters)
    : list Experiment :=
  samples_loop samples 0 ps [].

(** [AttackRuntimeStudy.experiments] *)
Definition experiments : list Experiment :=
  experiments_of SAMPLES_PER_ENTRY PARAMETERS.

End Experiments.


(** ** The estimator and the cell filter in the words of the specification

    These definitions follow the specification, not the code; the code is
    compared with them below. *)

(** A trial is successful when its accuracy is above the threshold; the
    failures are the rest. *)
Definition spec_successful (threshold : Q) (r : row) : bool :=
  if Qlt_le_dec threshold (row_accuracy r) then true else false.

Definition spec_successes (threshold : Q) (cell : DataFrame) : DataFrame :=
  filter (spec_successful threshold) cell.


Definition spec_success_rate (threshold : Q) (cell : DataFrame) : Q :=
  (inject_Z (len (spec_successes threshold cell)) / inject_Z (len cell))%Q.

(** The mean [measured_time] over a set of trials. *)
Definition spec_mean_time (trials : DataFrame) : Q :=
  (Qsum (map row_measured_time trials) / inject_Z (len trials))%Q.

Definition spec_mean_success_time (threshold : Q) (cell : DataFrame) : Q :=
  spec_mean_time (spec_successes threshold cell).




(** The experiment class that stands for an attack kind in the result
    rows. *)
Definition spec_experiment_of (attack : string) : string :=
  if String.eqb attack "corr" then "ExperimentCorrelationAttack"
  else "ExperimentLogisticRegression".

(** The rows of a cell when every column selects by [(n, k, N)], by attack
    kind and by transformation. *)
Definition spec_select (results : DataFrame) (p : TableEntryParameters)
    (attack transformation : string) : DataFrame :=
  filter (fun r =>
            (row_n r =? tep_n p) && (row_k r =? tep_k p)
            && (row_N r =? tep_N p)
            && String.eqb (row_experiment r) (spec_experiment_of attack)
            && String.eqb (row_transformation r) transformation) results.

(** A trial of the first configuration under the classic transformation,
    with the given accuracy and time. *)
Definition trial (accuracy time : Q) : row :=
  mk_row 64 5 300000 transform_atf "ExperimentLogisticRegression"
    accuracy time.

(** Three trials, two of them successful at threshold 0.98. *)
Definition scenario_two_of_three : DataFrame :=
  [trial (99 # 100) 100; trial (99 # 100) 120; trial (5 # 10) 50].

(** Four trials without a success. *)
Definition scenario_none_of_four : DataFrame :=
  [trial (5 # 10) 10; trial (5 # 10) 20; trial (5 # 10) 30;
   trial (5 # 10) 40].

(** * Properties *)

(** ** Comparisons and floor division *)

Lemma Qgtb_true (a b : Q) : Qgtb a b = true <-> (b < a)%Q.
Proof.
  unfold Qgtb. rewrite negb_true_iff.
  split; intro H.
  - apply Qnot_le_lt. intro L. apply Qle_bool_iff in L. congruence.
  - destruct (Qle_bool a b) eqn:E; [|reflexivity].
    apply Qle_bool_iff in E. exfalso. exact (Qlt_not_le _ _ H E).
Qed.

Lemma Qgtb_false (a b : Q) : Qgtb a b = false <-> (a <= b)%Q.
Proof.
  unfold Qgtb. rewrite negb_false_iff. apply Qle_bool_iff.
Qed.

Lemma floordiv_mult_le (s : Q) (u : Z) :
  0 < u -> (floordiv s u * inject_Z u <= s)%Q.
Proof.
  intro Hu. unfold floordiv.
  assert (Hpos : (0 < inject_Z u)%Q) by (unfold Qlt; simpl; lia).
  assert (Hne : ~ (inject_Z u == 0)%Q)
    by (intro E; rewrite E in Hpos; discriminate).
  apply Qle_trans with (s / inject_Z u * inject_Z u)%Q.
  - apply Qmult_le_compat_r; [apply Qfloor_le | apply Qlt_le_weak; exact Hpos].
  - rewrite Qmult_comm, Qmult_div_r by exact Hne. apply Qle_refl.
Qed.

Lemma Qdiv_1_r (s : Q) : (s / inject_Z 1 == s)%Q.
Proof. unfold Qdiv. change (/ inject_Z 1)%Q with 1%Q. apply Qmult_1_r. Qed.

(** Which branch [round_time] takes. *)
Lemma round_time_above (s : Q) :
  (inject_Z 345600 < s)%Q ->
  round_time s = (floordiv s 345600 * inject_Z 345600)%Q.
Proof.
  intro H. unfold round_time, units, round_time_loop.
  change (4 * 24 * 60 ^ 2) with 345600.
  apply Qgtb_true in H. rewrite H. reflexivity.
Qed.

Lemma round_time_middle (s : Q) :
  (1 < s)%Q -> (s <= inject_Z 345600)%Q ->
  round_time s = (floordiv s 1 * inject_Z 1)%Q.
Proof.
  intros H1 H2. unfold round_time, units, round_time_loop.
  change (4 * 24 * 60 ^ 2) with 345600.
  apply Qgtb_false in H2. rewrite H2.
  apply Qgtb_true in H1. change (inject_Z 1) with 1%Q at 1.
  rewrite H1. reflexivity.
Qed.

Lemma round_time_below (s : Q) : (s <= 1)%Q -> round_time s = s.
Proof.
  intro H. unfold round_time, units, round_time_loop.
  change (4 * 24 * 60 ^ 2) with 345600.
  assert (H2 : (s <= inject_Z 345600)%Q)
    by (apply Qle_trans with 1%Q; [exact H | discriminate]).
  apply Qgtb_false in H2. rewrite H2.
  apply Qgtb_false in H. change (inject_Z 1) with 1%Q.
  rewrite H. reflexivity.
Qed.

(** ** Rounding of durations *)

(** C6, as amended: for a duration [s >= 0], [round_time s] is
    [floor(s / 345600) * 345600], a whole and non-zero multiple of 4 days,
    when [s] exceeds 4 days; it is [s] cut down to whole seconds when
    [1 < s <= 345600]; and it is [s] itself, fraction included, when
    [s <= 1].  [round_time 400000] is [1 * 345600]. *)
Theorem round_time_cases (s : Q) :
  (0 <= s)%Q ->
  ((inject_Z 345600 < s)%Q ->
     (round_time s
      == inject_Z (Qfloor (s / inject_Z 345600)) * inject_Z 345600)%Q
     /\ 1 <= Qfloor (s / inject_Z 345600))
  /\ ((1 < s)%Q -> (s <= inject_Z 345600)%Q ->
     (round_time s == inject_Z (Qfloor s))%Q)
  /\ ((s <= 1)%Q -> round_time s = s)
  /\ (round_time (inject_Z 400000) == inject_Z 1 * inject_Z 345600)%Q.
Proof.
  intros _. repeat split.
  - rewrite (round_time_above s H). reflexivity.
  - change 1 with (Qfloor (inject_Z 1)). apply Qfloor_resp_le.
    apply Qle_shift_div_l; [reflexivity |].
    apply Qlt_le_weak. exact H.
  - intros H1 H2. rewrite (round_time_middle s H1 H2). unfold floordiv.
    rewrite (Qfloor_comp _ _ (Qdiv_1_r s)). apply Qmult_1_r.
  - apply round_time_below.
Qed.

Lemma round_time_cases_witness :
  (0 <= 7 # 2)%Q /\ (round_time (7 # 2) == inject_Z (Qfloor (7 # 2)))%Q.
Proof.
  split; [unfold Qle; simpl; lia |].
  apply (round_time_cases (7 # 2)); unfold Qle, Qlt; simpl; lia.
Defined.

(** C6, as stated, fails below one second: half a second is at most 4 days
    but comes back as it is, not cut down to 0 whole seconds. *)
Lemma round_time_half_second :
  (0 <= 1 # 2)%Q /\ ~ (inject_Z 345600 < 1 # 2)%Q
  /\ round_time (1 # 2) = (1 # 2)%Q
  /\ ~ (round_time (1 # 2) == inject_Z (Qfloor (1 # 2)))%Q.
Proof.
  repeat split.
  - discriminate.
  - intro H. discriminate H.
  - intro H. discriminate H.
Qed.

(** C7: rounding never increases a duration: [round_time s <= s] for every
    [s >= 0]. *)
Theorem round_time_never_increases (s : Q) :
  (0 <= s)%Q -> (round_time s <= s)%Q.
Proof.
  intros _. unfold round_time, units, round_time_loop.
  destruct (Qgtb s (inject_Z (4 * 24 * 60 ^ 2))).
  - apply floordiv_mult_le. reflexivity.
  - destruct (Qgtb s (inject_Z 1)).
    + apply floordiv_mult_le. reflexivity.
    + apply Qle_refl.
Qed.

Lemma round_time_never_increases_witness :
  (0 <= 400000 # 1)%Q /\ (round_time (400000 # 1) <= 400000 # 1)%Q.
Proof.
  split; [unfold Qle; simpl; lia |].
  apply (round_time_never_increases (400000 # 1)). unfold Qle; simpl; lia.
Defined.

(** ** Formatting of durations *)

(** A check over [0 <= z < bound] done by running it on every value. *)
Lemma below_bound_by_cases (P : Z -> bool) (bound : nat) :
  forallb P (map Z.of_nat (seq 0 bound)) = true ->
  forall z, 0 <= z < Z.of_nat bound -> P z = true.
Proof.
  intros Hall z Hz.
  rewrite forallb_forall in Hall. apply Hall.
  rewrite <- (Z2Nat.id z) by lia.
  apply in_map, in_seq. lia.
Qed.

Lemma fmt_02i_two_digits (z : Z) :
  0 <= z < 100 ->
  fmt_02i z = String (digit (z / 10)) (String (digit (z mod 10)) EmptyString).
Proof.
  intro Hz. apply String.eqb_eq.
  apply (below_bound_by_cases
           (fun z => String.eqb (fmt_02i z)
              (String (digit (z / 10))
                 (String (digit (z mod 10)) EmptyString))) 100);
    [vm_compute; reflexivity | exact Hz].
Qed.

Lemma fmt_2i_two_columns (z : Z) :
  0 <= z < 100 ->
  fmt_2i z = String (if z <? 10 then " "%char else digit (z / 10))
               (String (digit (z mod 10)) EmptyString).
Proof.
  intro Hz. apply String.eqb_eq.
  apply (below_bound_by_cases
           (fun z => String.eqb (fmt_2i z)
              (String (if z <? 10 then " "%char else digit (z / 10))
                 (String (digit (z mod 10)) EmptyString))) 100);
    [vm_compute; reflexivity | exact Hz].
Qed.

(** A normalized, non-negative duration of less than an hour has no days
    and fewer than 3600 seconds. *)
Lemma below_one_hour (delta : timedelta) :
  normalized delta ->
  (0 <= total_seconds delta)%Q -> (total_seconds delta < 3600)%Q ->
  days delta = 0 /\ 0 <= seconds delta < 3600.
Proof.
  intros [Hs Hu] H0 H1.
  unfold total_seconds, Qle, Qlt, Qdiv, Qmult, Qinv, inject_Z in H0, H1.
  simpl in H0, H1. lia.
Qed.

(** C8, as amended: for a non-negative duration of less than 1 hour,
    [time_to_string] gives the minutes right-aligned in a field of two
    columns (a blank in front of a single digit), then ["m "], then the
    seconds as exactly two digits, zero-padded, then ["s"]; there is no day
    or hour part.  [time_to_string] of 125 seconds is [" 2m 05s"], with its
    leading blank. *)
Theorem time_to_string_below_one_hour (delta : timedelta) :
  normalized delta ->
  (0 <= total_seconds delta)%Q -> (total_seconds delta < 3600)%Q ->
  let m := seconds delta / 60 in
  let s := seconds delta mod 60 in
  time_to_string delta
  = String (if m <? 10 then " "%char else digit (m / 10))
      (String (digit (m mod 10))
         ("m " ++ String (digit (s / 10)) (String (digit (s mod 10)) "s")))
  /\ time_to_string (timedelta_seconds (inject_Z 125)) = " 2m 05s".
Proof.
  intros Hn H0 H1 m s. split; [| vm_compute; reflexivity].
  destruct (below_one_hour delta Hn H0 H1) as [Hd Hs].
  unfold time_to_string.
  assert (Hle : (total_seconds delta <= inject_Z (4 * 24 * 60 ^ 2))%Q).
  { apply Qlt_le_weak, Qlt_trans with 3600%Q; [exact H1 | reflexivity]. }
  apply Qgtb_false in Hle. rewrite Hle.
  assert (Hh : seconds delta / 3600 = 0) by (apply Z.div_small; lia).
  rewrite Hh, Hd. simpl (24 * 0 + 0 =? 0).
  cbv iota.
  replace (seconds delta - 3600 * 0) with (seconds delta) by lia.
  rewrite Z.div_1_r.
  replace (seconds delta - 60 * (seconds delta / 60)) with s
    by (unfold s; rewrite Z.mod_eq by lia; reflexivity).
  fold m.
  assert (Hm : 0 <= m < 100).
  { unfold m. split; [apply Z.div_pos; lia |].
    apply Z.div_lt_upper_bound; lia. }
  assert (Hs' : 0 <= s < 100).
  { unfold s. pose proof (Z.mod_pos_bound (seconds delta) 60). lia. }
  rewrite (fmt_2i_two_columns m Hm), (fmt_02i_two_digits s Hs').
  reflexivity.
Qed.

Lemma time_to_string_below_one_hour_witness :
  let delta := mk_timedelta 0 125 0 in
  normalized delta
  /\ (0 <= total_seconds delta)%Q /\ (total_seconds delta < 3600)%Q
  /\ time_to_string delta = " 2m 05s".
Proof.
  intro delta.
  assert (Hn : normalized delta) by (unfold normalized; simpl; lia).
  assert (H0 : (0 <= total_seconds delta)%Q)
    by (unfold total_seconds, Qle; simpl; lia).
  assert (H1 : (total_seconds delta < 3600)%Q)
    by (unfold total_seconds, Qlt; simpl; lia).
  split; [exact Hn |]. split; [exact H0 |]. split; [exact H1 |].
  exact (proj1 (time_to_string_below_one_hour delta Hn H0 H1)).
Defined.

(** C8, as stated, fails on the sample it gives: 125 seconds are rendered
    with a blank in front, not as ["2m 05s"]. *)
Lemma time_to_string_125_leading_blank :
  time_to_string (timedelta_seconds (inject_Z 125)) = " 2m 05s"
  /\ time_to_string (timedelta_seconds (inject_Z 125)) <> "2m 05s".
Proof.
  split; [vm_compute; reflexivity | vm_compute; discriminate].
Qed.

(** C10: some non-negative duration of less than 4 days is rendered with a
    minutes field of 60: 7199 seconds give 1 hour and [round(3599 / 60)]
    = 60 minutes, the text [" 1h 60m"], not [" 2h 00m"]. *)
Theorem time_to_string_sixty_minutes :
  exists s : Q,
    (0 <= s)%Q /\ (s < inject_Z (4 * 24 * 60 ^ 2))%Q
    /\ s = inject_Z 7199
    /\ seconds (timedelta_seconds s) / 3600 = 1
    /\ py_round (inject_Z (seconds (timedelta_seconds s) - 3600 * 1) / 60)
       = 60
    /\ time_to_string (timedelta_seconds s) = " 1h 60m"
    /\ time_to_string (timedelta_seconds s) <> " 2h 00m".
Proof.
  exists (inject_Z 7199).
  repeat split; try (vm_compute; reflexivity); vm_compute; discriminate.
Qed.
(** ** The estimator *)

Lemma len_nonempty {A : Type} (l : list A) : l <> [] -> 0 < len l.
Proof. destruct l; [congruence | intros _; unfold len; simpl; lia]. Qed.

Lemma empty_false {A : Type} (l : list A) : l <> [] -> empty l = false.
Proof. destruct l; [congruence | reflexivity]. Qed.

Lemma mean_nonempty (l : list Q) :
  l <> [] -> mean l = Fin (Qsum l / inject_Z (len l)).
Proof. destruct l; [congruence | reflexivity]. Qed.

Lemma measured_time_nonempty (df : DataFrame) :
  df <> [] -> measured_time df <> [].
Proof. destruct df; [congruence | discriminate]. Qed.

Lemma len_measured_time (df : DataFrame) : len (measured_time df) = len df.
Proof. unfold len, measured_time. rewrite length_map. reflexivity. Qed.

Lemma rate_positive (a b : Z) :
  0 < a -> 0 < b -> (0 < inject_Z a / inject_Z b)%Q.
Proof.
  intros Ha Hb. apply Qlt_shift_div_l.
  - unfold Qlt; simpl; lia.
  - rewrite Qmult_0_l. unfold Qlt; simpl; lia.
Qed.

Lemma rate_zero (b : Z) : (inject_Z 0 / inject_Z b == 0)%Q.
Proof. unfold Qdiv. apply Qmult_0_l. Qed.

(** The code's two selections are the specification's partition. *)
Lemma successful_runs_spec (threshold : Q) (sel : DataFrame) :
  successful_runs threshold sel = spec_successes threshold sel.
Proof.
  apply filter_ext. intro r. unfold spec_successful.
  destruct (Qlt_le_dec threshold (row_accuracy r)) as [H | H].
  - apply Qgtb_true. exact H.
  - apply Qgtb_false. exact H.
Qed.



Lemma successful_runs_empty (threshold : Q) (sel : DataFrame) :
  (forall r, In r sel -> ~ (threshold < row_accuracy r)%Q) ->
  successful_runs threshold sel = [].
Proof.
  intro H. destruct (successful_runs threshold sel) as [| r l] eqn:E;
    [reflexivity | exfalso].
  assert (Hin : In r (successful_runs threshold sel))
    by (rewrite E; left; reflexivity).
  apply filter_In in Hin. destruct Hin as [Hin Hr].
  apply Qgtb_true in Hr. exact (H r Hin Hr).
Qed.

(** The value of [time_till_success] when some trial succeeded. *)
Lemma time_till_success_some (threshold : Q) (sel : DataFrame) :
  sel <> [] -> successful_runs threshold sel <> [] ->
  let rate :=
    (inject_Z (len (successful_runs threshold sel)) / inject_Z (len sel))%Q in
  (0 < rate)%Q
  /\ time_till_success threshold sel
     = Ok (rate,
           Fin (inject_Z (Qceiling (inject_Z 1 / rate) - 1)
                * match failed_runs threshold sel with
                  | [] => 0
                  | _ :: _ =>
                      Qsum (measured_time (failed_runs threshold sel))
                      / inject_Z (len (measured_time
                                         (failed_runs threshold sel)))
                  end
                + Qsum (measured_time (successful_runs threshold sel))
                  / inject_Z (len (measured_time
                                     (successful_runs threshold sel))))%Q).
Proof.
  intros Hsel Hsucc rate.
  assert (Hpos : (0 < rate)%Q)
    by (apply rate_positive; apply len_nonempty; assumption).
  split; [exact Hpos |].
  unfold time_till_success, int_truediv.
  pose proof (len_nonempty sel Hsel) as Hlen.
  destruct (len sel =? 0) eqn:E; [apply Z.eqb_eq in E; lia |].
  cbn [bind]. fold rate.
  rewrite (proj2 (Qgtb_true rate 0) Hpos).
  unfold float_truediv.
  destruct (Qeq_bool rate 0) eqn:E0.
  { apply Qeq_bool_iff in E0. rewrite E0 in Hpos. discriminate. }
  cbn [bind].
  rewrite (mean_nonempty _ (measured_time_nonempty _ Hsucc)).
  destruct (failed_runs threshold sel) as [| r l] eqn:Ef; reflexivity.
Qed.

(** The value of [time_till_success] when no trial succeeded. *)
Lemma time_till_success_none (threshold : Q) (sel : DataFrame) :
  sel <> [] -> successful_runs threshold sel = [] ->
  time_till_success threshold sel
  = Ok ((inject_Z 0 / inject_Z (len sel))%Q,
        Fin (Qsum (measured_time sel) / inject_Z (len (measured_time sel))
             * inject_Z (len sel))%Q).
Proof.
  intros Hsel Hsucc.
  unfold time_till_success, int_truediv.
  pose proof (len_nonempty sel Hsel) as Hlen.
  destruct (len sel =? 0) eqn:E; [apply Z.eqb_eq in E; lia |].
  cbn [bind]. rewrite Hsucc. change (len []) with 0.
  assert (Hz : Qgtb (inject_Z 0 / inject_Z (len sel)) 0 = false).
  { apply Qgtb_false. rewrite rate_zero. apply Qle_refl. }
  rewrite Hz.
  rewrite (mean_nonempty _ (measured_time_nonempty _ Hsel)).
  reflexivity.
Qed.

Lemma append_empty (s : string) : s ++ EmptyString = s.
Proof. induction s as [| c s IH]; simpl; [| rewrite IH]; reflexivity. Qed.



(** ** Table cells *)

Lemma column_entry_marked (rate e : Q) :
  (rate <= 0)%Q ->
  column_entry rate (Fin e)
  = Ok ("(" ++ time_to_string (timedelta_seconds (round_time e))
            ++ ")${}^\ast$").
Proof.
  intro H. unfold column_entry. apply Qgtb_false in H. rewrite H.
  reflexivity.
Qed.

Lemma column_entry_plain (rate e : Q) :
  (0 < rate)%Q ->
  column_entry rate (Fin e)
  = Ok (time_to_string (timedelta_seconds (round_time e))).
Proof.
  intro H. unfold column_entry. apply Qgtb_true in H. rewrite H.
  cbn [round_time_f timedelta_f bind]. rewrite append_empty. reflexivity.
Qed.

Lemma cell_with_data (threshold : Q) (results : DataFrame)
    (p : TableEntryParameters) (attack transformation : string)
    (rate : Q) (e : pyfloat) :
  select results p attack transformation <> [] ->
  time_till_success threshold (select results p attack transformation)
  = Ok (rate, e) ->
  cell threshold results p (attack, transformation) = column_entry rate e.
Proof.
  intros Hsel Heq. unfold cell. rewrite (empty_false _ Hsel), Heq.
  reflexivity.
Qed.

(** C2: for a non-empty cell without a trial above the threshold the
    success rate is 0, the estimate is the mean [measured_time] of the cell
    times its number of trials, and the table cell is the formatted
    duration in parentheses followed by the marker [${}^\ast$]; for a cell
    with a positive success rate the table cell is the formatted duration
    alone.  The code keeps no flag of its own: the test [success_rate > 0]
    that picks the estimate also picks the marking. *)
Theorem lower_bound_marking (threshold : Q) (results : DataFrame)
    (p : TableEntryParameters) (attack transformation : string) :
  let sel := select results p attack transformation in
  sel <> [] ->
  ((forall r, In r sel -> ~ (threshold < row_accuracy r)%Q) ->
   exists rate e,
     time_till_success threshold sel = Ok (rate, Fin e)
     /\ (rate == 0)%Q
     /\ (spec_success_rate threshold sel == 0)%Q
     /\ (e == spec_mean_time sel * inject_Z (len sel))%Q
     /\ cell threshold results p (attack, transformation)
        = Ok ("(" ++ time_to_string (timedelta_seconds (round_time e))
                  ++ ")${}^\ast$"))
  /\ ((0 < spec_success_rate threshold sel)%Q ->
      exists rate e,
        time_till_success threshold sel = Ok (rate, Fin e)
        /\ (rate == spec_success_rate threshold sel)%Q
        /\ cell threshold results p (attack, transformation)
           = Ok (time_to_string (timedelta_seconds (round_time e)))).
Proof.
  intros sel Hsel. split.
  - intro Hnone.
    pose proof (successful_runs_empty threshold sel Hnone) as Hsucc.
    pose proof (time_till_success_none threshold sel Hsel Hsucc) as Heq.
    eexists. eexists. split; [exact Heq |].
    split; [apply rate_zero |].
    split.
    { unfold spec_success_rate. rewrite <- successful_runs_spec, Hsucc.
      apply rate_zero. }
    split.
    { unfold spec_mean_time. rewrite len_measured_time. reflexivity. }
    rewrite (cell_with_data _ _ _ _ _ _ _ Hsel Heq).
    apply column_entry_marked. rewrite rate_zero. apply Qle_refl.
  - intro Hrate.
    assert (Hsucc : successful_runs threshold sel <> []).
    { intro E. unfold spec_success_rate in Hrate.
      rewrite <- successful_runs_spec, E in Hrate.
      change (len []) with 0 in Hrate. rewrite rate_zero in Hrate.
      discriminate. }
    destruct (time_till_success_some threshold sel Hsel Hsucc) as [Hpos Heq].
    eexists. eexists. split; [exact Heq |].
    split.
    { unfold spec_success_rate. rewrite <- successful_runs_spec. reflexivity. }
    rewrite (cell_with_data _ _ _ _ _ _ _ Hsel Heq).
    apply column_entry_plain. exact Hpos.
Qed.

Lemma lower_bound_marking_witness :
  let p := mk_entry 64 5 300000 None EmptyString in
  let none := select scenario_none_of_four p "lr" transform_atf in
  let some := select scenario_two_of_three p "lr" transform_atf in
  (none <> []
   /\ (forall r, In r none -> ~ (success_threshold < row_accuracy r)%Q)
   /\ exists rate e,
       time_till_success success_threshold none = Ok (rate, Fin e)
       /\ (rate == 0)%Q
       /\ (spec_success_rate success_threshold none == 0)%Q
       /\ (e == spec_mean_time none * inject_Z (len none))%Q
       /\ cell success_threshold scenario_none_of_four p ("lr", transform_atf)
          = Ok ("(" ++ time_to_string (timedelta_seconds (round_time e))
                    ++ ")${}^\ast$"))
  /\ (some <> []
      /\ (0 < spec_success_rate success_threshold some)%Q
      /\ exists rate e,
          time_till_success success_threshold some = Ok (rate, Fin e)
          /\ (rate == spec_success_rate success_threshold some)%Q
          /\ cell success_threshold scenario_two_of_three p
               ("lr", transform_atf)
             = Ok (time_to_string (timedelta_seconds (round_time e)))).
Proof.
  intros p none some.
  assert (Hn : none <> []) by (vm_compute; discriminate).
  assert (Hs : some <> []) by (vm_compute; discriminate).
  assert (Hnone : forall r, In r none
                            -> ~ (success_threshold < row_accuracy r)%Q).
  { intros r Hin Hlt. vm_compute in Hin.
    repeat (destruct Hin as [<- | Hin]; [vm_compute in Hlt; discriminate |]).
    exact Hin. }
  assert (Hsome : (0 < spec_success_rate success_threshold some)%Q)
    by (vm_compute; reflexivity).
  split.
  - split; [exact Hn |]. split; [exact Hnone |].
    exact (proj1 (lower_bound_marking success_threshold scenario_none_of_four
                    p "lr" transform_atf Hn) Hnone).
  - split; [exact Hs |]. split; [exact Hsome |].
    exact (proj2 (lower_bound_marking success_threshold scenario_two_of_three
                    p "lr" transform_atf Hs) Hsome).
Defined.

(** The two scenarios as they come out in the table. *)
Example scenario_cells :
  let p := mk_entry 64 5 300000 None EmptyString in
  cell success_threshold scenario_two_of_three p ("lr", transform_atf)
  = Ok " 2m 40s"
  /\ cell success_threshold scenario_none_of_four p ("lr", transform_atf)
     = Ok "( 1m 40s)${}^\ast$".
Proof. split; vm_compute; reflexivity. Qed.

(** ** Rows of the table *)








(** ** Selection of the rows of a cell *)

Lemma filter_twice {A : Type} (f g : A -> bool) (l : list A) :
  filter g (filter f l) = filter (fun x => f x && g x) l.
Proof.
  induction l as [| x l IH]; [reflexivity |].
  simpl. destruct (f x); simpl; [destruct (g x) |]; rewrite IH; reflexivity.
Qed.

(** C4, as amended: the rows of a cell are exactly the result rows, in
    their order and with their repetitions, whose [n], [k] and [N] equal
    the configuration's and which, in a column of the attack ["corr"], have
    the experiment ["ExperimentCorrelationAttack"], whatever their
    transformation, and in any other column have the column's
    transformation and the experiment ["ExperimentLogisticRegression"].
    All comparisons are equalities.  In the columns other than ["corr"]
    this is the selection by configuration, attack kind and
    transformation. *)
Theorem select_rows (results : DataFrame) (p : TableEntryParameters)
    (attack transformation : string) :
  select results p attack transformation
  = filter (fun r =>
              (row_n r =? tep_n p) && (row_k r =? tep_k p)
              && (row_N r =? tep_N p)
              && (if String.eqb attack "corr"
                  then String.eqb (row_experiment r)
                         "ExperimentCorrelationAttack"
                  else String.eqb (row_transformation r) transformation
                       && String.eqb (row_experiment r)
                            "ExperimentLogisticRegression")) results
  /\ (forall r,
         In r (select results p attack transformation)
         <-> In r results
             /\ row_n r = tep_n p /\ row_k r = tep_k p /\ row_N r = tep_N p
             /\ (attack = "corr"
                 /\ row_experiment r = "ExperimentCorrelationAttack"
                 \/ attack <> "corr"
                    /\ row_transformation r = transformation
                    /\ row_experiment r = "ExperimentLogisticRegression"))
  /\ (attack <> "corr" ->
      select results p attack transformation
      = spec_select results p attack transformation).
Proof.
  assert (Heq : select results p attack transformation
                = filter (fun r =>
                    (row_n r =? tep_n p) && (row_k r =? tep_k p)
                    && (row_N r =? tep_N p)
                    && (if String.eqb attack "corr"
                        then String.eqb (row_experiment r)
                               "ExperimentCorrelationAttack"
                        else String.eqb (row_transformation r) transformation
                             && String.eqb (row_experiment r)
                                  "ExperimentLogisticRegression")) results).
  { unfold select. destruct (String.eqb attack "corr"); apply filter_twice. }
  split; [exact Heq |]. split.
  - intro r. rewrite Heq, filter_In, !andb_true_iff, !Z.eqb_eq.
    destruct (String.eqb attack "corr") eqn:E.
    + apply String.eqb_eq in E. rewrite String.eqb_eq. intuition congruence.
    + apply String.eqb_neq in E.
      rewrite andb_true_iff, !String.eqb_eq. intuition congruence.
  - intro Hne. rewrite Heq. unfold spec_select, spec_experiment_of.
    apply String.eqb_neq in Hne. rewrite Hne.
    apply filter_ext. intro r.
    destruct (row_n r =? tep_n p), (row_k r =? tep_k p),
      (row_N r =? tep_N p); simpl; try reflexivity.
    apply andb_comm.
Qed.

Lemma select_rows_witness :
  let p := mk_entry 64 5 300000 None EmptyString in
  "lr" <> "corr"
  /\ select scenario_two_of_three p "lr" transform_atf
     = spec_select scenario_two_of_three p "lr" transform_atf.
Proof.
  intro p.
  assert (H : "lr" <> "corr") by discriminate.
  split; [exact H |].
  exact (proj2 (proj2 (select_rows scenario_two_of_three p "lr"
                         transform_atf)) H).
Defined.

(** C4, as stated, fails in the column of the correlation attack: a result
    row of that attack is selected there whatever its transformation. *)
Lemma select_corr_ignores_transformation :
  let r := mk_row 64 5 300000 transform_atf "ExperimentCorrelationAttack"
             (99 # 100) 100 in
  let p := mk_entry 64 5 300000 None EmptyString in
  row_transformation r <> transform_lightweight_secure
  /\ select [r] p "corr" transform_lightweight_secure = [r]
  /\ spec_select [r] p "corr" transform_lightweight_secure = []
  /\ select [r] p "corr" transform_lightweight_secure
     <> spec_select [r] p "corr" transform_lightweight_secure.
Proof.
  intros r p. repeat split; try reflexivity; discriminate.
Qed.

(** ** The experiment list *)

Lemma flat_map_map {A B C : Type} (f : B -> list C) (g : A -> B)
    (l : list A) :
  flat_map f (map g l) = flat_map (fun x => f (g x)) l.
Proof.
  induction l as [| x l IH]; simpl; [| rewrite IH]; reflexivity.
Qed.

Section ExperimentList.

Variable name : string.

(** The experiments of one configuration at one repetition index. *)
Let block (i : Z) (p : TableEntryParameters) : list Experiment :=
  ExperimentCorrelationAttack name (common p i) 1000
  :: map (fun t => ExperimentLogisticRegression name (common p i) t
                     combiner_xor) TRANSFORMATIONS.

Lemma transforms_loop_app (c : common_parameters) (ts : list string) :
  forall acc,
    transforms_loop name c ts acc
    = (acc ++ map (fun t => ExperimentLogisticRegression name c t
                              combiner_xor) ts)%list.
Proof.
  induction ts as [| t ts IH]; intro acc; simpl.
  - rewrite app_nil_r. reflexivity.
  - rewrite IH, <- app_assoc. reflexivity.
Qed.

Lemma parameters_loop_app (i : Z) (ps : list TableEntryParameters) :
  forall acc,
    parameters_loop name i ps acc = (acc ++ flat_map (block i) ps)%list.
Proof.
  induction ps as [| p ps IH]; intro acc.
  - simpl. rewrite app_nil_r. reflexivity.
  - cbn [parameters_loop flat_map]. rewrite IH, transforms_loop_app.
    unfold block. rewrite <- !app_assoc. reflexivity.
Qed.

Lemma samples_loop_app (ps : list TableEntryParameters) (count : nat) :
  forall i acc,
    samples_loop name count i ps acc
    = (acc ++ flat_map (fun j => flat_map (block (i + Z.of_nat j)) ps)
                (seq 0 count))%list.
Proof.
  induction count as [| count IH]; intros i acc.
  - simpl. rewrite app_nil_r. reflexivity.
  - cbn [samples_loop]. rewrite IH, parameters_loop_app.
    rewrite <- app_assoc. f_equal.
    cbn [seq flat_map]. rewrite Z.add_0_r. f_equal.
    rewrite <- seq_shift, flat_map_map.
    apply flat_map_ext. intro j. f_equal. f_equal. lia.
Qed.

(** Repetition-major, then configuration, then variant. *)
Lemma experiments_of_blocks (samples : nat)
    (ps : list TableEntryParameters) :
  experiments_of name samples ps
  = flat_map (fun j => flat_map (block (Z.of_nat j)) ps) (seq 0 samples).
Proof.
  unfold experiments_of. rewrite samples_loop_app. reflexivity.
Qed.

Lemma in_experiments_of (samples : nat) (ps : list TableEntryParameters)
    (e : Experiment) :
  In e (experiments_of name samples ps)
  <-> exists i p,
        0 <= i < Z.of_nat samples /\ In p ps
        /\ (e = ExperimentCorrelationAttack name (common p i) 1000
            \/ exists t, In t TRANSFORMATIONS
                         /\ e = ExperimentLogisticRegression name
                                  (common p i) t combiner_xor).
Proof.
  rewrite experiments_of_blocks, in_flat_map. split.
  - intros [j [Hj He]]. apply in_seq in Hj. apply in_flat_map in He.
    destruct He as [p [Hp He]]. exists (Z.of_nat j), p.
    split; [lia |]. split; [exact Hp |].
    destruct He as [He | He]; [left; symmetry; exact He | right].
    apply in_map_iff in He. destruct He as [t [He Ht]].
    exists t. split; [exact Ht | symmetry; exact He].
  - intros [i [p [Hi [Hp He]]]]. exists (Z.to_nat i).
    split; [apply in_seq; lia |].
    apply in_flat_map. exists p. split; [exact Hp |].
    rewrite Z2Nat.id by lia.
    destruct He as [-> | [t [Ht ->]]]; [left; reflexivity | right].
    apply in_map_iff. exists t. split; [reflexivity | exact Ht].
Qed.

Lemma length_experiments_of (samples : nat)
    (ps : list TableEntryParameters) :
  List.length (experiments_of name samples ps)
  = (samples * (List.length ps * 4))%nat.
Proof.
  rewrite experiments_of_blocks.
  assert (Hb : forall j,
             List.length (flat_map (block (Z.of_nat j)) ps)
             = (List.length ps * 4)%nat).
  { intro j. induction ps as [| p ps' IH]; [reflexivity |].
    cbn [flat_map]. rewrite length_app, IH. reflexivity. }
  assert (Hs : forall start,
             List.length
               (flat_map (fun j => flat_map (block (Z.of_nat j)) ps)
                  (seq start samples))
             = (samples * (List.length ps * 4))%nat).
  { induction samples as [| samples IH]; intro start; [reflexivity |].
    cbn [seq flat_map]. rewrite length_app, Hb, IH. reflexivity. }
  apply Hs.
Qed.

End ExperimentList.


(** The study itself: 1000 repetitions of 5 configurations, 4 experiments
    each. *)
Example experiments_count (name : string) :
  List.length (experiments name) = 20000%nat.
Proof.
  unfold experiments. rewrite length_experiments_of. reflexivity.
Qed.






(** * Further properties *)

(** ** More on round_time *)

Lemma round_time_le_self (s : Q) : (round_time s <= s)%Q.
Proof.
  destruct (Qlt_le_dec (inject_Z 345600) s) as [Ha | Ha].
  - rewrite (round_time_above s Ha). apply floordiv_mult_le. reflexivity.
  - destruct (Qlt_le_dec 1 s) as [Hb | Hb].
    + rewrite (round_time_middle s Hb Ha). apply floordiv_mult_le. reflexivity.
    + rewrite (round_time_below s Hb). apply Qle_refl.
Qed.

Lemma floordiv_one (s : Q) : floordiv s 1 = inject_Z (Qfloor s).
Proof.
  unfold floordiv. rewrite (Qfloor_comp _ _ (Qdiv_1_r s)). reflexivity.
Qed.

(** [s < (floor(s / u) + 1) * u] *)
Lemma floordiv_mult_gt (s : Q) (u : Z) :
  0 < u -> (s < floordiv s u * inject_Z u + inject_Z u)%Q.
Proof.
  intro Hu. unfold floordiv.
  assert (Hpos : (0 < inject_Z u)%Q) by (unfold Qlt; simpl; lia).
  assert (Hne : ~ (inject_Z u == 0)%Q)
    by (intro E; rewrite E in Hpos; discriminate).
  pose proof (Qlt_floor (s / inject_Z u)) as Hfl.
  rewrite inject_Z_plus in Hfl.
  apply (Qmult_lt_compat_r _ _ (inject_Z u) Hpos) in Hfl.
  rewrite (Qmult_comm (s / inject_Z u)), Qmult_div_r in Hfl by exact Hne.
  rewrite Qmult_plus_distr_l, Qmult_1_l in Hfl. exact Hfl.
Qed.

Lemma one_le_floor (s : Q) : (1 < s)%Q -> 1 <= Qfloor s.
Proof.
  intro H. change 1 with (Qfloor (inject_Z 1)).
  apply Qfloor_resp_le, Qlt_le_weak. exact H.
Qed.

Lemma one_le_floordiv (s : Q) :
  (inject_Z 345600 < s)%Q -> 1 <= Qfloor (s / inject_Z 345600).
Proof.
  intro H. change 1 with (Qfloor (inject_Z 1)). apply Qfloor_resp_le.
  apply Qle_shift_div_l; [reflexivity |]. apply Qlt_le_weak. exact H.
Qed.

(** A whole number of seconds that is at most 4 days, or a whole number of
    4-day units, is left as it is. *)
Lemma round_time_whole (q : Q) (z : Z) :
  (q == inject_Z z)%Q ->
  z <= 345600 \/ (exists m, z = m * 345600) ->
  (round_time q == q)%Q.
Proof.
  intros Hq Hz.
  destruct (Qlt_le_dec (inject_Z 345600) q) as [Ha | Ha].
  - rewrite (round_time_above q Ha).
    destruct Hz as [Hz | [m ->]].
    + exfalso. rewrite Hq in Ha. unfold Qlt in Ha. simpl in Ha. lia.
    + unfold floordiv.
      assert (Hm : (q / inject_Z 345600 == inject_Z m)%Q).
      { rewrite Hq, inject_Z_mult. apply Qdiv_mult_l. discriminate. }
      rewrite (Qfloor_comp _ _ Hm), Qfloor_Z, Hq, inject_Z_mult.
      reflexivity.
  - destruct (Qlt_le_dec 1 q) as [Hb | Hb].
    + rewrite (round_time_middle q Hb Ha), floordiv_one.
      rewrite (Qfloor_comp _ _ Hq), Qfloor_Z, Hq. apply Qmult_1_r.
    + rewrite (round_time_below q Hb). reflexivity.
Qed.

(** X1: rounding a rounded duration changes nothing. *)
Theorem round_time_idempotent (s : Q) :
  (round_time (round_time s) == round_time s)%Q.
Proof.
  destruct (Qlt_le_dec (inject_Z 345600) s) as [Ha | Ha].
  - rewrite (round_time_above s Ha).
    apply (round_time_whole _ (Qfloor (s / inject_Z 345600) * 345600)).
    + unfold floordiv. rewrite inject_Z_mult. reflexivity.
    + right. eexists. reflexivity.
  - destruct (Qlt_le_dec 1 s) as [Hb | Hb].
    + rewrite (round_time_middle s Hb Ha), floordiv_one.
      apply (round_time_whole _ (Qfloor s)).
      * apply Qmult_1_r.
      * left. change 345600 with (Qfloor (inject_Z 345600)).
        apply Qfloor_resp_le. exact Ha.
    + rewrite (round_time_below s Hb), (round_time_below s Hb). reflexivity.
Qed.

(** X2: rounding keeps the order of durations. *)
Theorem round_time_monotone (s t : Q) :
  (s <= t)%Q -> (round_time s <= round_time t)%Q.
Proof.
  intro Hst.
  destruct (Qlt_le_dec (inject_Z 345600) t) as [Ha | Ha].
  - rewrite (round_time_above t Ha).
    destruct (Qlt_le_dec (inject_Z 345600) s) as [Hs | Hs].
    + rewrite (round_time_above s Hs). unfold floordiv.
      apply Qmult_le_compat_r; [| discriminate].
      rewrite <- Zle_Qle. apply Qfloor_resp_le.
      apply Qmult_le_compat_r; [exact Hst | discriminate].
    + apply Qle_trans with s; [apply round_time_le_self |].
      apply Qle_trans with (inject_Z 345600); [exact Hs |].
      unfold floordiv. rewrite <- inject_Z_mult, <- Zle_Qle.
      pose proof (one_le_floordiv t Ha). lia.
  - assert (Hs : (s <= inject_Z 345600)%Q)
      by (apply Qle_trans with t; assumption).
    destruct (Qlt_le_dec 1 t) as [Hb | Hb].
    + rewrite (round_time_middle t Hb Ha), floordiv_one, Qmult_1_r.
      destruct (Qlt_le_dec 1 s) as [Hc | Hc].
      * rewrite (round_time_middle s Hc Hs), floordiv_one, Qmult_1_r.
        rewrite <- Zle_Qle. apply Qfloor_resp_le. exact Hst.
      * rewrite (round_time_below s Hc).
        apply Qle_trans with 1%Q; [exact Hc |].
        change 1%Q with (inject_Z 1). rewrite <- Zle_Qle.
        apply one_le_floor. exact Hb.
    + assert (Hc : (s <= 1)%Q) by (apply Qle_trans with t; assumption).
      rewrite (round_time_below s Hc), (round_time_below t Hb). exact Hst.
Qed.

Lemma round_time_monotone_witness :
  (7 # 2 <= 400000 # 1)%Q /\ (round_time (7 # 2) <= round_time (400000 # 1))%Q.
Proof.
  split; [unfold Qle; simpl; lia |].
  apply (round_time_monotone (7 # 2) (400000 # 1)). unfold Qle; simpl; lia.
Defined.

(** X3: rounding takes off less than 4 days, and less than a second from a
    duration of at most 4 days. *)
Theorem round_time_loss (s : Q) :
  (s < round_time s + inject_Z 345600)%Q
  /\ ((s <= inject_Z 345600)%Q -> (s < round_time s + 1)%Q).
Proof.
  destruct (Qlt_le_dec (inject_Z 345600) s) as [Ha | Ha].
  - split.
    + rewrite (round_time_above s Ha). apply floordiv_mult_gt. reflexivity.
    + intro H. exfalso. exact (Qlt_not_le _ _ Ha H).
  - assert (H1 : (s < round_time s + 1)%Q).
    { destruct (Qlt_le_dec 1 s) as [Hb | Hb].
      - rewrite (round_time_middle s Hb Ha).
        apply (floordiv_mult_gt s 1). reflexivity.
      - rewrite (round_time_below s Hb).
        rewrite <- (Qplus_0_r s) at 1.
        apply Qplus_lt_r. reflexivity. }
    split; [| intros _; exact H1].
    apply Qlt_trans with (round_time s + 1)%Q; [exact H1 |].
    apply Qplus_lt_r. reflexivity.
Qed.

Lemma round_time_loss_witness :
  (7 # 2 <= inject_Z 345600)%Q /\ (7 # 2 < round_time (7 # 2) + 1)%Q.
Proof.
  split; [unfold Qle; simpl; lia |].
  apply (round_time_loss (7 # 2)). unfold Qle; simpl; lia.
Defined.

(** ** More on time_to_string *)

Lemma py_round_whole (q : Q) (z : Z) : (q == inject_Z z)%Q -> py_round q = z.
Proof.
  intro Hq. unfold py_round.
  rewrite (Qfloor_comp _ _ Hq), Qfloor_Z.
  assert (Hlt : (q - inject_Z z ?= 1 # 2)%Q = Lt).
  { apply Qlt_alt. rewrite Hq. unfold Qminus. rewrite Qplus_opp_r.
    reflexivity. }
  rewrite Hlt. reflexivity.
Qed.

(** [timedelta(seconds=z)] for a whole number of seconds. *)
Lemma timedelta_seconds_whole (q : Q) (z : Z) :
  (q == inject_Z z)%Q ->
  timedelta_seconds q = mk_timedelta (z / 86400) (z mod 86400) 0.
Proof.
  intro Hq. unfold timedelta_seconds.
  assert (Hus : py_round (q * 1000000) = z * 1000000).
  { apply py_round_whole. rewrite Hq, inject_Z_mult. reflexivity. }
  rewrite Hus. f_equal.
  - change 86400000000 with (86400 * 1000000).
    apply Z.div_mul_cancel_r; lia.
  - change 86400000000 with (86400 * 1000000).
    rewrite Z.mul_mod_distr_r by lia. apply Z.div_mul. lia.
  - apply Z.mod_mul. lia.
Qed.

Lemma total_seconds_le (delta : timedelta) (bound : Z) :
  (total_seconds delta <= inject_Z bound)%Q
  <-> (days delta * 86400 + seconds delta) * 1000000 + microseconds delta
      <= bound * 1000000.
Proof.
  unfold total_seconds, Qle, Qdiv, Qmult, Qinv, inject_Z. simpl. lia.
Qed.

Lemma total_seconds_lt (delta : timedelta) (bound : Z) :
  (total_seconds delta < inject_Z bound)%Q
  <-> (days delta * 86400 + seconds delta) * 1000000 + microseconds delta
      < bound * 1000000.
Proof.
  unfold total_seconds, Qlt, Qdiv, Qmult, Qinv, inject_Z. simpl. lia.
Qed.

(** The three branches of [time_to_string]. *)
Lemma time_to_string_days (delta : timedelta) :
  (inject_Z 345600 < total_seconds delta)%Q ->
  time_to_string delta = fmt_i (days delta) ++ " days".
Proof.
  intro H. unfold time_to_string.
  change (4 * 24 * 60 ^ 2) with 345600.
  apply Qgtb_true in H. rewrite H. reflexivity.
Qed.

Lemma time_to_string_minutes (delta : timedelta) :
  days delta = 0 -> 0 <= seconds delta < 3600 ->
  0 <= microseconds delta < 1000000 ->
  time_to_string delta
  = fmt_2i (seconds delta / 60) ++ "m " ++ fmt_02i (seconds delta mod 60)
    ++ "s".
Proof.
  intros Hd Hs Hu. unfold time_to_string.
  change (4 * 24 * 60 ^ 2) with 345600.
  assert (Hle : (total_seconds delta <= inject_Z 345600)%Q)
    by (apply total_seconds_le; lia).
  apply Qgtb_false in Hle. rewrite Hle.
  rewrite (Z.div_small (seconds delta) 3600) by lia.
  rewrite Hd. change (24 * 0 + 0 =? 0) with true. cbv iota.
  rewrite Z.mul_0_r, Z.sub_0_r, Z.div_1_r.
  replace (seconds delta - 60 * (seconds delta / 60))
    with (seconds delta mod 60) by (rewrite Z.mod_eq by lia; reflexivity).
  reflexivity.
Qed.

Lemma time_to_string_hours (delta : timedelta) :
  normalized delta ->
  3600 <= days delta * 86400 + seconds delta ->
  (total_seconds delta <= inject_Z 345600)%Q ->
  time_to_string delta
  = fmt_2i (24 * days delta + seconds delta / 3600) ++ "h "
    ++ fmt_02i (py_round (inject_Z (seconds delta mod 3600) / 60)) ++ "m".
Proof.
  intros [Hs Hu] Hlo Hle. unfold time_to_string.
  change (4 * 24 * 60 ^ 2) with 345600.
  assert (Hd : 0 <= days delta) by lia.
  assert (Hh : 0 <= seconds delta / 3600) by (apply Z.div_pos; lia).
  apply Qgtb_false in Hle. rewrite Hle.
  destruct (24 * days delta + seconds delta / 3600 =? 0) eqn:E.
  - apply Z.eqb_eq in E. exfalso.
    assert (seconds delta / 3600 = 0) by lia.
    assert (seconds delta < 3600)
      by (apply Z.div_small_iff in H; lia).
    lia.
  - replace (seconds delta - 3600 * (seconds delta / 3600))
      with (seconds delta mod 3600) by (rewrite Z.mod_eq by lia; reflexivity).
    reflexivity.
Qed.

(** [round(r / 60)] in whole numbers, for the seconds left over an hour. *)
Lemma py_round_minutes (r : Z) :
  0 <= r < 3600 ->
  py_round (inject_Z r / 60)
  = if (r mod 60 =? 30) && Z.even (r / 60) then r / 60 else (r + 30) / 60.
Proof.
  intro Hr. apply Z.eqb_eq.
  apply (below_bound_by_cases
           (fun r => py_round (inject_Z r / 60)
                     =? (if (r mod 60 =? 30) && Z.even (r / 60)
                         then r / 60 else (r + 30) / 60)) 3600);
    [vm_compute; reflexivity | exact Hr].
Qed.

Lemma length_fmt_2i (z : Z) : 0 <= z < 100 -> String.length (fmt_2i z) = 2%nat.
Proof. intro H. rewrite (fmt_2i_two_columns z H). reflexivity. Qed.

Lemma length_fmt_02i (z : Z) :
  0 <= z < 100 -> String.length (fmt_02i z) = 2%nat.
Proof. intro H. rewrite (fmt_02i_two_digits z H). reflexivity. Qed.

Lemma length_append (s t : string) :
  String.length (s ++ t) = (String.length s + String.length t)%nat.
Proof. induction s as [| c s IH]; simpl; [| rewrite IH]; reflexivity. Qed.

Lemma total_seconds_ge (delta : timedelta) (bound : Z) :
  (inject_Z bound <= total_seconds delta)%Q
  <-> bound * 1000000
      <= (days delta * 86400 + seconds delta) * 1000000 + microseconds delta.
Proof.
  unfold total_seconds, Qle, Qdiv, Qmult, Qinv, inject_Z. simpl. lia.
Qed.

Lemma total_seconds_gt (delta : timedelta) (bound : Z) :
  (inject_Z bound < total_seconds delta)%Q
  <-> bound * 1000000
      < (days delta * 86400 + seconds delta) * 1000000 + microseconds delta.
Proof.
  unfold total_seconds, Qlt, Qdiv, Qmult, Qinv, inject_Z. simpl. lia.
Qed.

Lemma minutes_sixty (r : Z) :
  0 <= r < 3600 ->
  let m := if (r mod 60 =? 30) && Z.even (r / 60)
           then r / 60 else (r + 30) / 60 in
  0 <= m <= 60 /\ (m = 60 <-> 3570 <= r).
Proof.
  intros Hr m.
  assert (H : ((0 <=? m) && (m <=? 60)
               && Bool.eqb (m =? 60) (3570 <=? r)) = true).
  { unfold m.
    apply (below_bound_by_cases
             (fun r =>
                let m := if (r mod 60 =? 30) && Z.even (r / 60)
                         then r / 60 else (r + 30) / 60 in
                (0 <=? m) && (m <=? 60)
                && Bool.eqb (m =? 60) (3570 <=? r)) 3600);
      [vm_compute; reflexivity | exact Hr]. }
  apply andb_true_iff in H. destruct H as [H H3].
  apply andb_true_iff in H. destruct H as [H1 H2].
  apply Z.leb_le in H1, H2. apply eqb_prop in H3.
  split; [lia |].
  rewrite <- Z.eqb_eq, H3. apply Z.leb_le.
Qed.

(** X4: between one hour and 4 days the text is the whole hours, counted
    over the days, and the minutes rounded to the nearest with ties to the
    even minute; the hours are between 1 and 96, the minutes between 0 and
    60, and the minutes are 60 exactly when at least 3570 seconds are left
    over the last whole hour. *)
Theorem time_to_string_hours_branch (delta : timedelta) :
  normalized delta ->
  (inject_Z 3600 <= total_seconds delta)%Q ->
  (total_seconds delta <= inject_Z 345600)%Q ->
  let h := (days delta * 86400 + seconds delta) / 3600 in
  let r := seconds delta mod 3600 in
  let m := if (r mod 60 =? 30) && Z.even (r / 60)
           then r / 60 else (r + 30) / 60 in
  time_to_string delta = fmt_2i h ++ "h " ++ fmt_02i m ++ "m"
  /\ 1 <= h <= 96 /\ 0 <= m <= 60 /\ (m = 60 <-> 3570 <= r).
Proof.
  intros Hn Hlo Hhi h r m.
  pose proof Hn as [Hs Hu].
  apply total_seconds_ge in Hlo. pose proof Hhi as Hhi'.
  apply total_seconds_le in Hhi'.
  assert (Hsum : 3600 <= days delta * 86400 + seconds delta <= 345600) by lia.
  assert (Hh : h = 24 * days delta + seconds delta / 3600).
  { unfold h. replace (days delta * 86400) with (24 * days delta * 3600) by lia.
    apply Z.div_add_l. lia. }
  assert (Hr : 0 <= r < 3600) by (apply Z.mod_pos_bound; lia).
  split.
  - rewrite (time_to_string_hours delta Hn (proj1 Hsum) Hhi).
    fold r. rewrite (py_round_minutes r Hr), <- Hh. reflexivity.
  - split.
    + unfold h. split.
      * apply Z.div_le_lower_bound; lia.
      * apply Z.div_le_upper_bound; lia.
    + apply (minutes_sixty r Hr).
Qed.

Lemma time_to_string_hours_branch_witness :
  let delta := mk_timedelta 0 7199 0 in
  normalized delta
  /\ (inject_Z 3600 <= total_seconds delta)%Q
  /\ (total_seconds delta <= inject_Z 345600)%Q
  /\ time_to_string delta = " 1h 60m".
Proof.
  intro delta.
  assert (Hn : normalized delta) by (unfold normalized; simpl; lia).
  assert (H0 : (inject_Z 3600 <= total_seconds delta)%Q)
    by (unfold total_seconds, Qle; simpl; lia).
  assert (H1 : (total_seconds delta <= inject_Z 345600)%Q)
    by (unfold total_seconds, Qle; simpl; lia).
  split; [exact Hn |]. split; [exact H0 |]. split; [exact H1 |].
  exact (proj1 (time_to_string_hours_branch delta Hn H0 H1)).
Defined.

(** X5: a non-negative duration of at most 4 days is rendered in exactly
    seven characters. *)
Theorem time_to_string_width (delta : timedelta) :
  normalized delta ->
  (0 <= total_seconds delta)%Q ->
  (total_seconds delta <= inject_Z 345600)%Q ->
  String.length (time_to_string delta) = 7%nat.
Proof.
  intros Hn Hlo Hhi. pose proof Hn as [Hs Hu].
  apply (total_seconds_ge delta 0) in Hlo. pose proof Hhi as Hhi'.
  apply total_seconds_le in Hhi'.
  destruct (Z_lt_le_dec (days delta * 86400 + seconds delta) 3600) as [Hm | Hh].
  - assert (Hd : days delta = 0) by lia.
    rewrite (time_to_string_minutes delta Hd) by lia.
    rewrite !length_append, length_fmt_2i, length_fmt_02i; [reflexivity | |].
    + pose proof (Z.mod_pos_bound (seconds delta) 60). lia.
    + split; [apply Z.div_pos; lia | apply Z.div_lt_upper_bound; lia].
  - rewrite (time_to_string_hours delta Hn Hh Hhi).
    assert (Hr : 0 <= seconds delta mod 3600 < 3600)
      by (apply Z.mod_pos_bound; lia).
    rewrite (py_round_minutes _ Hr).
    pose proof (minutes_sixty _ Hr) as [Hmin _].
    rewrite !length_append, length_fmt_2i, length_fmt_02i;
      [reflexivity | lia |].
    replace (24 * days delta + seconds delta / 3600)
      with ((days delta * 86400 + seconds delta) / 3600).
    + split; [apply Z.div_pos; lia | apply Z.div_lt_upper_bound; lia].
    + replace (days delta * 86400) with (24 * days delta * 3600) by lia.
      apply Z.div_add_l. lia.
Qed.

Lemma time_to_string_width_witness :
  let delta := mk_timedelta 4 0 0 in
  normalized delta
  /\ (0 <= total_seconds delta)%Q
  /\ (total_seconds delta <= inject_Z 345600)%Q
  /\ String.length (time_to_string delta) = 7%nat.
Proof.
  intro delta.
  assert (Hn : normalized delta) by (unfold normalized; simpl; lia).
  assert (H0 : (0 <= total_seconds delta)%Q)
    by (unfold total_seconds, Qle; simpl; lia).
  assert (H1 : (total_seconds delta <= inject_Z 345600)%Q)
    by (unfold total_seconds, Qle; simpl; lia).
  split; [exact Hn |]. split; [exact H0 |]. split; [exact H1 |].
  exact (time_to_string_width delta Hn H0 H1).
Defined.

(** ** round_time followed by time_to_string, as in a table cell *)

Lemma floor_below (x : Q) (b : Z) : (x < inject_Z b)%Q -> Qfloor x < b.
Proof.
  intro H. rewrite Zlt_Qlt.
  apply Qle_lt_trans with x; [apply Qfloor_le | exact H].
Qed.

(** The rounded value of a duration above 4 days, in whole seconds. *)
Lemma round_time_above_whole (s : Q) :
  (inject_Z 345600 < s)%Q ->
  (round_time s == inject_Z (Qfloor (s / inject_Z 345600) * 345600))%Q.
Proof.
  intro H. rewrite (round_time_above s H). unfold floordiv.
  rewrite inject_Z_mult. reflexivity.
Qed.

(** X6: a duration above 4 days and below 8 days is rounded to exactly
    4 days, which is not above 4 days, and so is shown in hours, as
    ["96h 00m"], not in days. *)
Theorem four_to_eight_days_in_hours (s : Q) :
  (inject_Z 345600 < s)%Q -> (s < inject_Z 691200)%Q ->
  (round_time s == inject_Z 345600)%Q
  /\ time_to_string (timedelta_seconds (round_time s)) = "96h 00m".
Proof.
  intros Hlo Hhi.
  assert (Hk : Qfloor (s / inject_Z 345600) = 1).
  { pose proof (one_le_floordiv s Hlo).
    assert (Qfloor (s / inject_Z 345600) < 2); [| lia].
    apply floor_below. apply Qlt_shift_div_r; [reflexivity | exact Hhi]. }
  pose proof (round_time_above_whole s Hlo) as Hr. rewrite Hk in Hr.
  split; [exact Hr |].
  rewrite (timedelta_seconds_whole _ _ Hr). vm_compute. reflexivity.
Qed.

Lemma four_to_eight_days_in_hours_witness :
  (inject_Z 345600 < inject_Z 400000)%Q
  /\ (inject_Z 400000 < inject_Z 691200)%Q
  /\ time_to_string (timedelta_seconds (round_time (inject_Z 400000)))
     = "96h 00m".
Proof.
  assert (H0 : (inject_Z 345600 < inject_Z 400000)%Q)
    by (unfold Qlt; simpl; lia).
  assert (H1 : (inject_Z 400000 < inject_Z 691200)%Q)
    by (unfold Qlt; simpl; lia).
  split; [exact H0 |]. split; [exact H1 |].
  exact (proj2 (four_to_eight_days_in_hours (inject_Z 400000) H0 H1)).
Defined.

(** X7: a duration of 8 days or more is shown as a number of days that is
    a multiple of 4: [4 * floor(s / 345600)] followed by [" days"]. *)
Theorem eight_days_and_more_in_days (s : Q) :
  (inject_Z 691200 <= s)%Q ->
  time_to_string (timedelta_seconds (round_time s))
  = fmt_i (4 * Qfloor (s / inject_Z 345600)) ++ " days".
Proof.
  intro Hlo.
  assert (Hgt : (inject_Z 345600 < s)%Q)
    by (apply Qlt_le_trans with (inject_Z 691200); [reflexivity | exact Hlo]).
  assert (Hk : 2 <= Qfloor (s / inject_Z 345600)).
  { change 2 with (Qfloor (inject_Z 2)). apply Qfloor_resp_le.
    apply Qle_shift_div_l; [reflexivity | exact Hlo]. }
  rewrite (timedelta_seconds_whole _ _ (round_time_above_whole s Hgt)).
  set (k := Qfloor (s / inject_Z 345600)) in *.
  replace (k * 345600 / 86400) with (4 * k)
    by (replace (k * 345600) with (4 * k * 86400) by lia;
        rewrite Z.div_mul by lia; reflexivity).
  replace ((k * 345600) mod 86400) with 0
    by (replace (k * 345600) with (4 * k * 86400) by lia;
        rewrite Z.mod_mul by lia; reflexivity).
  rewrite time_to_string_days; [reflexivity |].
  apply total_seconds_gt. cbn [days seconds microseconds]. lia.
Qed.

Lemma eight_days_and_more_in_days_witness :
  (inject_Z 691200 <= inject_Z 1000000)%Q
  /\ time_to_string (timedelta_seconds (round_time (inject_Z 1000000)))
     = "8 days".
Proof.
  assert (H : (inject_Z 691200 <= inject_Z 1000000)%Q)
    by (unfold Qle; simpl; lia).
  split; [exact H |].
  exact (eight_days_and_more_in_days (inject_Z 1000000) H).
Defined.

(** X8: a duration above one second and below one hour is shown as the
    minutes and seconds of its whole seconds; the fraction is dropped, not
    rounded. *)
Theorem below_one_hour_whole_seconds (s : Q) :
  (1 < s)%Q -> (s < inject_Z 3600)%Q ->
  let t := Qfloor s in
  time_to_string (timedelta_seconds (round_time s))
  = fmt_2i (t / 60) ++ "m " ++ fmt_02i (t mod 60) ++ "s".
Proof.
  intros Hlo Hhi t.
  assert (Hle : (s <= inject_Z 345600)%Q).
  { apply Qlt_le_weak, Qlt_trans with (inject_Z 3600);
      [exact Hhi | reflexivity]. }
  assert (Hr : (round_time s == inject_Z t)%Q).
  { rewrite (round_time_middle s Hlo Hle), floordiv_one. apply Qmult_1_r. }
  assert (Ht : 1 <= t < 3600).
  { split; [apply one_le_floor; exact Hlo | apply floor_below; exact Hhi]. }
  rewrite (timedelta_seconds_whole _ _ Hr).
  rewrite (Z.div_small t 86400), (Z.mod_small t 86400) by lia.
  apply time_to_string_minutes; simpl; lia.
Qed.

Lemma below_one_hour_whole_seconds_witness :
  (1 < 2519 # 20)%Q /\ (2519 # 20 < inject_Z 3600)%Q
  /\ time_to_string (timedelta_seconds (round_time (2519 # 20))) = " 2m 05s".
Proof.
  assert (H0 : (1 < 2519 # 20)%Q) by (unfold Qlt; simpl; lia).
  assert (H1 : (2519 # 20 < inject_Z 3600)%Q) by (unfold Qlt; simpl; lia).
  split; [exact H0 |]. split; [exact H1 |].
  exact (below_one_hour_whole_seconds (2519 # 20) H0 H1).
Defined.

(** X9: a duration of at least one hour and at most 4 days is shown as
    the hours and minutes of its whole seconds [t]: [t / 3600] hours and
    the seconds left over the hour rounded to minutes, ties to the even
    minute. *)
Theorem hours_of_whole_seconds (s : Q) :
  (inject_Z 3600 <= s)%Q -> (s <= inject_Z 345600)%Q ->
  let t := Qfloor s in
  let r := t mod 3600 in
  let m := if (r mod 60 =? 30) && Z.even (r / 60)
           then r / 60 else (r + 30) / 60 in
  time_to_string (timedelta_seconds (round_time s))
  = fmt_2i (t / 3600) ++ "h " ++ fmt_02i m ++ "m".
Proof.
  intros Hlo Hhi t r m.
  assert (H1 : (1 < s)%Q)
    by (apply Qlt_le_trans with (inject_Z 3600); [reflexivity | exact Hlo]).
  assert (Hr : (round_time s == inject_Z t)%Q).
  { rewrite (round_time_middle s H1 Hhi), floordiv_one. apply Qmult_1_r. }
  assert (Ht : 3600 <= t <= 345600).
  { split.
    - change 3600 with (Qfloor (inject_Z 3600)). apply Qfloor_resp_le, Hlo.
    - change 345600 with (Qfloor (inject_Z 345600)).
      apply Qfloor_resp_le, Hhi. }
  rewrite (timedelta_seconds_whole _ _ Hr).
  pose proof (Z.div_mod t 86400 ltac:(lia)) as Hdm.
  pose proof (Z.mod_pos_bound t 86400 ltac:(lia)) as Hmod.
  rewrite time_to_string_hours; cbn [days seconds microseconds].
  - assert (Hh : 24 * (t / 86400) + t mod 86400 / 3600 = t / 3600).
    { rewrite Hdm at 3.
      replace (86400 * (t / 86400) + t mod 86400)
        with (24 * (t / 86400) * 3600 + t mod 86400) by lia.
      rewrite Z.div_add_l by lia. reflexivity. }
    assert (Hm : (t mod 86400) mod 3600 = r).
    { unfold r. change 86400 with (3600 * 24).
      rewrite Z.rem_mul_r by lia.
      rewrite Z.mul_comm, Z.mod_add by lia. apply Z.mod_mod. lia. }
    rewrite Hh, Hm.
    rewrite py_round_minutes by (apply Z.mod_pos_bound; lia).
    reflexivity.
  - unfold normalized. cbn [seconds microseconds]. lia.
  - lia.
  - apply total_seconds_le. cbn [days seconds microseconds]. lia.
Qed.

Lemma hours_of_whole_seconds_witness :
  (inject_Z 3600 <= 14399 # 2)%Q /\ (14399 # 2 <= inject_Z 345600)%Q
  /\ time_to_string (timedelta_seconds (round_time (14399 # 2)))
     = " 1h 60m".
Proof.
  assert (H0 : (inject_Z 3600 <= 14399 # 2)%Q) by (unfold Qle; simpl; lia).
  assert (H1 : (14399 # 2 <= inject_Z 345600)%Q) by (unfold Qle; simpl; lia).
  split; [exact H0 |]. split; [exact H1 |].
  exact (hours_of_whole_seconds (14399 # 2) H0 H1).
Defined.

Lemma py_round_million (x : Q) :
  (0 <= x)%Q -> (x <= inject_Z 1000000)%Q ->
  0 <= py_round x <= 1000000
  /\ (py_round x = 1000000 <-> (1999999 # 2 <= x)%Q).
Proof.
  intros Hlo Hhi. unfold py_round.
  pose proof (Qfloor_le x) as Hfl. pose proof (Qlt_floor x) as Hfu.
  assert (Hf : 0 <= Qfloor x <= 1000000).
  { split.
    - change 0 with (Qfloor (inject_Z 0)). apply Qfloor_resp_le, Hlo.
    - change 1000000 with (Qfloor (inject_Z 1000000)).
      apply Qfloor_resp_le, Hhi. }
  set (f := Qfloor x) in *.
  assert (Hcases : f = 1000000 \/ f = 999999 \/ f <= 999998) by lia.
  destruct Hcases as [E | [E | E]].
  - assert (Hx : (x == inject_Z 1000000)%Q)
      by (apply Qle_antisym; [exact Hhi | rewrite <- E; exact Hfl]).
    assert (Hc : (x - inject_Z f ?= 1 # 2)%Q = Lt).
    { apply Qlt_alt. rewrite E, Hx. reflexivity. }
    rewrite Hc. split; [lia |]. split; [intros _ | intros _; exact E].
    rewrite Hx. discriminate.
  - destruct (x - inject_Z f ?= 1 # 2)%Q eqn:Hc.
    + apply Qeq_alt in Hc. rewrite E in *. change (Z.even 999999) with false.
      split; [lia |]. split; [intros _ | intros _; reflexivity].
      apply Qle_minus_iff. apply Qle_minus_iff in Hfl.
      setoid_replace (x + - (1999999 # 2))%Q
        with ((x - inject_Z 999999) - (1 # 2))%Q by ring.
      rewrite Hc. discriminate.
    + apply Qlt_alt in Hc. rewrite E in *.
      split; [lia |]. split; [intro H; discriminate H |].
      intro H. exfalso.
      assert (Hd : (x - inject_Z 999999 < 1 # 2)%Q) by exact Hc.
      apply (Qplus_lt_l _ _ (inject_Z 999999)) in Hd.
      setoid_replace (x - inject_Z 999999 + inject_Z 999999)%Q with x
        in Hd by ring.
      apply (Qlt_not_le _ _ Hd). exact H.
    + rewrite E. split; [lia |]. split; [intros _ | intros _; reflexivity].
      apply Qgt_alt in Hc.
      apply (Qplus_lt_l _ _ (inject_Z 999999)) in Hc.
      setoid_replace (x - inject_Z f + inject_Z 999999)%Q with x
        in Hc by (rewrite E; ring).
      apply Qlt_le_weak. exact Hc.
  - assert (Hlt : (x < 1999999 # 2)%Q).
    { apply Qlt_le_trans with (inject_Z (f + 1)); [exact Hfu |].
      apply Qle_trans with (inject_Z 999999);
        [rewrite <- Zle_Qle; lia | discriminate]. }
    assert (Hne : ~ (1999999 # 2 <= x)%Q)
      by (intro H; exact (Qlt_not_le _ _ Hlt H)).
    destruct (x - inject_Z f ?= 1 # 2)%Q; [destruct (Z.even f) | |];
      (split; [lia |]); split; intro H; try lia; contradiction.
Qed.

(** X10: a duration of at most one second keeps its fraction in
    [round_time] and is shown as [" 0m 01s"] when it is at least 0.9999995
    seconds, the point from which it counts as a full second to the nearest
    microsecond, and as [" 0m 00s"] below. *)
Theorem at_most_one_second (s : Q) :
  (0 <= s)%Q -> (s <= 1)%Q ->
  ((1999999 # 2000000 <= s)%Q ->
   time_to_string (timedelta_seconds (round_time s)) = " 0m 01s")
  /\ ((s < 1999999 # 2000000)%Q ->
      time_to_string (timedelta_seconds (round_time s)) = " 0m 00s").
Proof.
  intros Hlo Hhi. rewrite (round_time_below s Hhi).
  assert (Hx0 : (0 <= s * 1000000)%Q).
  { apply Qmult_le_0_compat; [exact Hlo | discriminate]. }
  assert (Hx1 : (s * 1000000 <= inject_Z 1000000)%Q).
  { setoid_replace (inject_Z 1000000) with (1 * 1000000)%Q by reflexivity.
    apply Qmult_le_compat_r; [exact Hhi | discriminate]. }
  destruct (py_round_million _ Hx0 Hx1) as [Hb Hiff].
  assert (Hhalf : (1999999 # 2 <= s * 1000000)%Q
                  <-> (1999999 # 2000000 <= s)%Q).
  { setoid_replace (1999999 # 2)%Q with ((1999999 # 2000000) * 1000000)%Q
      by reflexivity.
    split; intro H.
    - apply Qmult_le_r in H; [exact H | reflexivity].
    - apply Qmult_le_compat_r; [exact H | discriminate]. }
  split; intro H.
  - assert (Hus : py_round (s * 1000000) = 1000000)
      by (apply Hiff, Hhalf, H).
    unfold timedelta_seconds. rewrite Hus. vm_compute. reflexivity.
  - assert (Hus : py_round (s * 1000000) < 1000000).
    { assert (py_round (s * 1000000) <> 1000000); [| lia].
      intro E. apply Hiff, Hhalf in E. exact (Qlt_not_le _ _ H E). }
    unfold timedelta_seconds.
    set (us := py_round (s * 1000000)) in *.
    rewrite time_to_string_minutes; cbn [days seconds microseconds].
    + rewrite (Z.mod_small us 86400000000) by lia.
      rewrite (Z.div_small us 1000000) by lia. reflexivity.
    + apply Z.div_small. lia.
    + rewrite (Z.mod_small us 86400000000) by lia.
      rewrite (Z.div_small us 1000000) by lia. lia.
    + apply Z.mod_pos_bound. lia.
Qed.

Lemma at_most_one_second_witness :
  (0 <= 1 # 2)%Q /\ (1 # 2 <= 1)%Q /\ (1 # 2 < 1999999 # 2000000)%Q
  /\ time_to_string (timedelta_seconds (round_time (1 # 2))) = " 0m 00s".
Proof.
  assert (H0 : (0 <= 1 # 2)%Q) by (unfold Qle; simpl; lia).
  assert (H1 : (1 # 2 <= 1)%Q) by (unfold Qle; simpl; lia).
  assert (H2 : (1 # 2 < 1999999 # 2000000)%Q) by (unfold Qlt; simpl; lia).
  split; [exact H0 |]. split; [exact H1 |]. split; [exact H2 |].
  exact (proj2 (at_most_one_second (1 # 2) H0 H1) H2).
Defined.

(** ** More on the estimate of a cell *)

Lemma length_filter_split {A : Type} (f : A -> bool) (l : list A) :
  (List.length (filter f l) + List.length (filter (fun x => negb (f x)) l)
   = List.length l)%nat.
Proof.
  induction l as [| x l IH]; [reflexivity |].
  simpl. destruct (f x); simpl; lia.
Qed.

Lemma failed_runs_complement (threshold : Q) (sel : DataFrame) :
  failed_runs threshold sel
  = filter (fun r => negb (Qgtb (row_accuracy r) threshold)) sel.
Proof.
  apply filter_ext. intro r. unfold Qgtb. rewrite negb_involutive.
  reflexivity.
Qed.


Lemma len_filter_le {A : Type} (f : A -> bool) (l : list A) :
  len (filter f l) <= len l.
Proof.
  unfold len. apply Nat2Z.inj_le.
  pose proof (length_filter_split f l). lia.
Qed.

Lemma rate_at_most_one (a b : Z) :
  0 <= a <= b -> 0 < b ->
  (0 <= inject_Z a / inject_Z b)%Q /\ (inject_Z a / inject_Z b <= 1)%Q.
Proof.
  intros Ha Hb.
  assert (Hpos : (0 < inject_Z b)%Q) by (unfold Qlt; simpl; lia).
  split.
  - apply Qle_shift_div_l; [exact Hpos |].
    rewrite Qmult_0_l. unfold Qle; simpl; lia.
  - apply Qle_shift_div_r; [exact Hpos |].
    rewrite Qmult_1_l. unfold Qle; simpl; lia.
Qed.

(** X12: for every non-empty cell the computation returns, and the success
    rate is between 0 and 1. *)
Theorem success_rate_bounds (threshold : Q) (sel : DataFrame) :
  sel <> [] ->
  exists rate e,
    time_till_success threshold sel = Ok (rate, Fin e)
    /\ (0 <= rate)%Q /\ (rate <= 1)%Q.
Proof.
  intro Hsel.
  pose proof (len_nonempty sel Hsel) as Hn.
  assert (Hb : forall l : DataFrame, 0 <= len l)
    by (intro l; unfold len; lia).
  destruct (successful_runs threshold sel) as [| r0 l0] eqn:E.
  - pose proof (time_till_success_none threshold sel Hsel E) as Heq.
    eexists. eexists. split; [exact Heq |].
    apply rate_at_most_one; lia.
  - assert (Hs : successful_runs threshold sel <> [])
      by (rewrite E; discriminate).
    destruct (time_till_success_some threshold sel Hsel Hs) as [_ Heq].
    eexists. eexists. split; [exact Heq |].
    apply rate_at_most_one; [| exact Hn].
    split; [apply Hb | apply len_filter_le].
Qed.

Lemma success_rate_bounds_witness :
  scenario_two_of_three <> []
  /\ exists rate e,
       time_till_success success_threshold scenario_two_of_three
       = Ok (rate, Fin e)
       /\ (0 <= rate)%Q /\ (rate <= 1)%Q.
Proof.
  assert (H : scenario_two_of_three <> []) by (vm_compute; discriminate).
  split; [exact H |].
  exact (success_rate_bounds success_threshold scenario_two_of_three H).
Defined.

(** [ceil(1 / (k / n))] in whole numbers. *)
Lemma ceiling_inverse_rate (k n : Z) :
  0 < k -> 0 < n ->
  Qceiling (inject_Z 1 / (inject_Z k / inject_Z n)) = (n + k - 1) / k.
Proof.
  intros Hk Hn.
  assert (Hk' : ~ (inject_Z k == 0)%Q)
    by (unfold Qeq; simpl; lia).
  assert (Hn' : ~ (inject_Z n == 0)%Q)
    by (unfold Qeq; simpl; lia).
  assert (E : (- (inject_Z 1 / (inject_Z k / inject_Z n))
               == inject_Z (- n) / inject_Z k)%Q).
  { rewrite inject_Z_opp. field. split; assumption. }
  unfold Qceiling. rewrite (Qfloor_comp _ _ E), <- Zdiv_Qdiv.
  apply Z.div_unique with (k - 1 - (- n) mod k).
  - left. pose proof (Z.mod_pos_bound (- n) k Hk). lia.
  - pose proof (Z.div_mod (- n) k). lia.
Qed.




Lemma filter_all {A : Type} (f : A -> bool) (l : list A) :
  (forall x, In x l -> f x = true) -> filter f l = l.
Proof.
  induction l as [| x l IH]; intro H; [reflexivity |].
  simpl. rewrite (H x (or_introl eq_refl)), IH; [reflexivity |].
  intros y Hy. apply H. right. exact Hy.
Qed.

Lemma filter_none {A : Type} (f : A -> bool) (l : list A) :
  (forall x, In x l -> f x = false) -> filter f l = [].
Proof.
  induction l as [| x l IH]; intro H; [reflexivity |].
  simpl. rewrite (H x (or_introl eq_refl)). apply IH.
  intros y Hy. apply H. right. exact Hy.
Qed.

(** X14: when every trial of a cell succeeded, the success rate is 1, one
    try is counted, and the estimate is the mean measured time of the
    cell. *)
Theorem all_successful (threshold : Q) (sel : DataFrame) :
  sel <> [] ->
  (forall r, In r sel -> (threshold < row_accuracy r)%Q) ->
  exists rate e,
    time_till_success threshold sel = Ok (rate, Fin e)
    /\ (rate == 1)%Q
    /\ Qceiling (inject_Z 1 / rate) = 1
    /\ (e == spec_mean_time sel)%Q.
Proof.
  intros Hsel Hall.
  assert (Hs : successful_runs threshold sel = sel).
  { apply filter_all. intros r Hr. apply Qgtb_true, Hall, Hr. }
  assert (Hf : failed_runs threshold sel = []).
  { rewrite failed_runs_complement. apply filter_none. intros r Hr.
    apply negb_false_iff, Qgtb_true, Hall, Hr. }
  assert (Hne : successful_runs threshold sel <> [])
    by (rewrite Hs; exact Hsel).
  pose proof (len_nonempty sel Hsel) as Hn.
  destruct (time_till_success_some threshold sel Hsel Hne) as [_ Heq].
  rewrite Hs, Hf in Heq.
  assert (Hc : Qceiling (inject_Z 1 / (inject_Z (len sel) / inject_Z (len sel)))
               = 1).
  { rewrite (ceiling_inverse_rate _ _ Hn Hn).
    replace (len sel + len sel - 1) with (1 * len sel + (len sel - 1)) by lia.
    rewrite Z.div_add_l by lia. rewrite Z.div_small by lia. reflexivity. }
  eexists. eexists. split; [exact Heq |].
  split.
  { unfold Qdiv. apply Qmult_inv_r. unfold Qeq; simpl; lia. }
  split; [exact Hc |].
  rewrite Hc. unfold spec_mean_time. rewrite len_measured_time.
  change (inject_Z (1 - 1)) with 0%Q. rewrite Qmult_0_l, Qplus_0_l.
  reflexivity.
Qed.

Lemma all_successful_witness :
  let sel := [trial (99 # 100) 100; trial 1 120] in
  sel <> []
  /\ (forall r, In r sel -> (success_threshold < row_accuracy r)%Q)
  /\ exists rate e,
       time_till_success success_threshold sel = Ok (rate, Fin e)
       /\ (rate == 1)%Q
       /\ Qceiling (inject_Z 1 / rate) = 1
       /\ (e == spec_mean_time sel)%Q.
Proof.
  intro sel.
  assert (H : sel <> []) by (vm_compute; discriminate).
  assert (Hall : forall r, In r sel
                           -> (success_threshold < row_accuracy r)%Q).
  { intros r Hin. vm_compute in Hin.
    repeat (destruct Hin as [<- | Hin]; [vm_compute; reflexivity |]).
    destruct Hin. }
  split; [exact H |]. split; [exact Hall |].
  exact (all_successful success_threshold sel H Hall).
Defined.

Lemma Qsum_nonneg (l : list Q) :
  (forall q, In q l -> (0 <= q)%Q) -> (0 <= Qsum l)%Q.
Proof.
  induction l as [| q l IH]; intro H; [apply Qle_refl |].
  simpl. rewrite <- (Qplus_0_l 0). apply Qplus_le_compat.
  - apply H. left. reflexivity.
  - apply IH. intros y Hy. apply H. right. exact Hy.
Qed.

Lemma mean_time_nonneg (df : DataFrame) :
  (forall r, In r df -> (0 <= row_measured_time r)%Q) ->
  (0 <= Qsum (measured_time df) / inject_Z (len (measured_time df)))%Q.
Proof.
  intro H. destruct df as [| r0 df0] eqn:E.
  { unfold len. simpl. discriminate. }
  rewrite <- E in *.
  apply Qle_shift_div_l.
  - rewrite len_measured_time.
    assert (0 < len df) by (apply len_nonempty; rewrite E; discriminate).
    unfold Qlt; simpl; lia.
  - rewrite Qmult_0_l. apply Qsum_nonneg. intros q Hq.
    apply in_map_iff in Hq. destruct Hq as [x [<- Hx]]. apply H, Hx.
Qed.

(** X15: when no measured time of a cell is negative, the estimate is not
    negative, and when some trial succeeded it is at least the mean time of
    the successful trials. *)
Theorem estimate_not_negative (threshold : Q) (sel : DataFrame) :
  sel <> [] ->
  (forall r, In r sel -> (0 <= row_measured_time r)%Q) ->
  exists rate e,
    time_till_success threshold sel = Ok (rate, Fin e)
    /\ (0 <= e)%Q
    /\ (successful_runs threshold sel <> [] ->
        (spec_mean_success_time threshold sel <= e)%Q).
Proof.
  intros Hsel Htimes.
  pose proof (len_nonempty sel Hsel) as Hn.
  destruct (successful_runs threshold sel) as [| r0 l0] eqn:E.
  - pose proof (time_till_success_none threshold sel Hsel E) as Heq.
    eexists. eexists. split; [exact Heq |].
    split; [| intro H; exfalso; apply H; reflexivity].
    apply Qmult_le_0_compat; [apply mean_time_nonneg; exact Htimes |].
    unfold Qle; simpl; lia.
  - assert (Hs : successful_runs threshold sel <> [])
      by (rewrite E; discriminate).
    rewrite <- E in *.
    destruct (time_till_success_some threshold sel Hsel Hs) as [Hpos Heq].
    eexists. eexists. split; [exact Heq |].
    assert (Htries : (0 <= inject_Z
                       (Qceiling
                          (inject_Z 1
                           / (inject_Z (len (successful_runs threshold sel))
                              / inject_Z (len sel))) - 1))%Q).
    { rewrite (ceiling_inverse_rate _ _ (len_nonempty _ Hs) Hn).
      change 0%Q with (inject_Z 0). rewrite <- Zle_Qle.
      assert (1 <= (len sel + len (successful_runs threshold sel) - 1)
                   / len (successful_runs threshold sel)); [| lia].
      pose proof (len_nonempty _ Hs).
      pose proof (len_filter_le
                    (fun r => Qgtb (row_accuracy r) threshold) sel).
      unfold successful_runs in *.
      apply Z.div_le_lower_bound; lia. }
    assert (Hfail : (0 <= match failed_runs threshold sel with
                          | [] => 0
                          | _ :: _ =>
                              Qsum (measured_time (failed_runs threshold sel))
                              / inject_Z (len (measured_time
                                                 (failed_runs threshold sel)))
                          end)%Q).
    { destruct (failed_runs threshold sel) as [| f0 fl] eqn:Ef;
        [apply Qle_refl |].
      rewrite <- Ef. apply mean_time_nonneg. intros r Hr. apply Htimes.
      unfold failed_runs in Hr. apply filter_In in Hr. apply Hr. }
    assert (Hsuccm :
              (0 <= Qsum (measured_time (successful_runs threshold sel))
                    / inject_Z (len (measured_time
                                       (successful_runs threshold sel))))%Q).
    { apply mean_time_nonneg. intros r Hr. apply Htimes.
      unfold successful_runs in Hr. apply filter_In in Hr. apply Hr. }
    pose proof (Qmult_le_0_compat _ _ Htries Hfail) as Hprod.
    split.
    + rewrite <- (Qplus_0_l 0). apply Qplus_le_compat; assumption.
    + intros _. unfold spec_mean_success_time, spec_mean_time.
      rewrite <- (successful_runs_spec threshold sel).
      apply Qle_trans
        with (0 + Qsum (measured_time (successful_runs threshold sel))
                  / inject_Z (len (measured_time
                                     (successful_runs threshold sel))))%Q.
      * rewrite Qplus_0_l, len_measured_time. apply Qle_refl.
      * apply Qplus_le_compat; [exact Hprod | apply Qle_refl].
Qed.

Lemma estimate_not_negative_witness :
  scenario_two_of_three <> []
  /\ (forall r, In r scenario_two_of_three -> (0 <= row_measured_time r)%Q)
  /\ exists rate e,
       time_till_success success_threshold scenario_two_of_three
       = Ok (rate, Fin e)
       /\ (0 <= e)%Q.
Proof.
  assert (H : scenario_two_of_three <> []) by (vm_compute; discriminate).
  assert (Ht : forall r, In r scenario_two_of_three
                         -> (0 <= row_measured_time r)%Q).
  { intros r Hin. vm_compute in Hin.
    repeat (destruct Hin as [<- | Hin]; [vm_compute; discriminate |]).
    destruct Hin. }
  split; [exact H |]. split; [exact Ht |].
  destruct (estimate_not_negative success_threshold scenario_two_of_three
              H Ht) as [rate [e [Heq [Hpos _]]]].
  exists rate, e. split; [exact Heq | exact Hpos].
Defined.

(** ** More on the cells of the table *)

Lemma select_filter (results : DataFrame) (p : TableEntryParameters)
    (attack transformation : string) :
  select results p attack transformation
  = filter (fun r =>
              (row_n r =? tep_n p) && (row_k r =? tep_k p)
              && (row_N r =? tep_N p)
              && (if String.eqb attack "corr"
                  then String.eqb (row_experiment r)
                         "ExperimentCorrelationAttack"
                  else String.eqb (row_transformation r) transformation
                       && String.eqb (row_experiment r)
                            "ExperimentLogisticRegression")) results.
Proof.
  unfold select. destruct (String.eqb attack "corr"); apply filter_twice.
Qed.

Lemma in_select (results : DataFrame) (p : TableEntryParameters)
    (attack transformation : string) (r : row) :
  In r (select results p attack transformation) ->
  (row_n r = tep_n p /\ row_k r = tep_k p /\ row_N r = tep_N p)
  /\ (String.eqb attack "corr" = true
      /\ row_experiment r = "ExperimentCorrelationAttack"
      \/ String.eqb attack "corr" = false
         /\ row_transformation r = transformation
         /\ row_experiment r = "ExperimentLogisticRegression").
Proof.
  rewrite select_filter, filter_In, !andb_true_iff, !Z.eqb_eq.
  intros [_ [[[Hn Hk] HN] Hc]]. split; [auto |].
  destruct (String.eqb attack "corr").
  - left. apply String.eqb_eq in Hc. auto.
  - right. apply andb_true_iff in Hc. rewrite !String.eqb_eq in Hc.
    destruct Hc. auto.
Qed.

(** X16: no result row is counted in two cells of the table: a row that is
    selected for a configuration and column of the study is selected for no
    other configuration and no other column. *)
Theorem cells_disjoint (results : DataFrame) (p p' : TableEntryParameters)
    (c c' : string * string) (r : row) :
  In p PARAMETERS -> In p' PARAMETERS -> In c columns -> In c' columns ->
  In r (select results p (fst c) (snd c)) ->
  In r (select results p' (fst c') (snd c')) ->
  p = p' /\ c = c'.
Proof.
  intros Hp Hp' Hc Hc' Hr Hr'.
  apply in_select in Hr, Hr'.
  destruct Hr as [[Hn [Hk HN]] Ha]. destruct Hr' as [[Hn' [Hk' HN']] Ha'].
  split.
  - rewrite Hn in Hn'. rewrite Hk in Hk'. rewrite HN in HN'.
    clear - Hp Hp' Hn' Hk' HN'.
    simpl in Hp, Hp'.
    repeat (destruct Hp as [<- | Hp]; [| try contradiction]);
      repeat (destruct Hp' as [<- | Hp']; [| try contradiction]);
      try reflexivity; simpl in *; lia.
  - clear - Hc Hc' Ha Ha'.
    simpl in Hc, Hc'.
    repeat (destruct Hc as [<- | Hc]; [| try contradiction]);
      repeat (destruct Hc' as [<- | Hc']; [| try contradiction]);
      try reflexivity; simpl in Ha, Ha';
      destruct Ha as [[Ha1 Ha2] | [Ha1 [Ha2 Ha3]]];
      destruct Ha' as [[Hb1 Hb2] | [Hb1 [Hb2 Hb3]]];
      try discriminate; exfalso;
      try (rewrite Ha2 in Hb2; discriminate);
      try (rewrite Ha2 in Hb3; discriminate);
      try (rewrite Ha3 in Hb2; discriminate).
Qed.

Lemma cells_disjoint_witness :
  let p := mk_entry 64 5 300000 (Some (2, 2, 1))
             "Perm. Index. Dist. (n=64; k=5; 300,000 CRPs)" in
  let c := ("lr", transform_atf) in
  let r := trial (99 # 100) 100 in
  In p PARAMETERS /\ In c columns
  /\ In r (select scenario_two_of_three p (fst c) (snd c))
  /\ (p = p /\ c = c).
Proof.
  intros p c r.
  assert (Hp : In p PARAMETERS) by (left; reflexivity).
  assert (Hc : In c columns) by (left; reflexivity).
  assert (Hr : In r (select scenario_two_of_three p (fst c) (snd c)))
    by (left; reflexivity).
  split; [exact Hp |]. split; [exact Hc |]. split; [exact Hr |].
  exact (cells_disjoint scenario_two_of_three p p c c r Hp Hp Hc Hc Hr Hr).
Defined.

Lemma columns_loop_ext (threshold : Q) (results results' : DataFrame)
    (p : TableEntryParameters) (cols : list (string * string)) :
  (forall c, cell threshold results p c = cell threshold results' p c) ->
  forall acc,
    columns_loop threshold results p cols acc
    = columns_loop threshold results' p cols acc.
Proof.
  intro H. induction cols as [| c cols IH]; intro acc; [reflexivity |].
  simpl. rewrite H. destruct (cell threshold results' p c); [| reflexivity].
  simpl. apply IH.
Qed.

Lemma rows_loop_ext (threshold : Q) (results results' : DataFrame)
    (cols : list (string * string)) (ps : list TableEntryParameters) :
  (forall p c, In p ps ->
               cell threshold results p c = cell threshold results' p c) ->
  forall latex,
    rows_loop threshold results cols ps latex
    = rows_loop threshold results' cols ps latex.
Proof.
  induction ps as [| p ps IH]; intros H latex; [reflexivity |].
  cbn [rows_loop].
  rewrite (columns_loop_ext threshold results results' p cols)
    by (intro c; apply H; left; reflexivity).
  destruct (columns_loop threshold results' p cols []); [| reflexivity].
  cbn [bind]. apply IH. intros q c Hq. apply H. right. exact Hq.
Qed.

(** X17: rows of configurations that are not in [PARAMETERS] never change
    the table: the table of a result set is the table of its rows whose
    [(n, k, N)] is one of the study's configurations. *)
Theorem foreign_rows_ignored (results : DataFrame) :
  gen_table results
  = gen_table
      (filter (fun r =>
                 existsb (fun p => (row_n r =? tep_n p)
                                   && (row_k r =? tep_k p)
                                   && (row_N r =? tep_N p)) PARAMETERS)
         results).
Proof.
  unfold gen_table, gen_table_of.
  destruct (comprehension _ columns) as [attacks |]; [| reflexivity].
  cbn [bind].
  destruct (comprehension _ columns) as [transforms |]; [| reflexivity].
  cbn [bind].
  match goal with
  | |- bind (rows_loop ?t ?r ?c ?ps ?l) _ = bind (rows_loop _ ?r' _ _ _) _ =>
      rewrite (rows_loop_ext t r r' c ps); [reflexivity |]
  end.
  intros p [attack transformation] Hp. unfold cell.
  replace (select (filter _ results) p attack transformation)
    with (select results p attack transformation); [reflexivity |].
  rewrite !select_filter, filter_twice.
  apply filter_ext. intro r.
  destruct ((row_n r =? tep_n p) && (row_k r =? tep_k p)
            && (row_N r =? tep_N p)) eqn:E.
  - assert (Hex : existsb (fun p => (row_n r =? tep_n p)
                                    && (row_k r =? tep_k p)
                                    && (row_N r =? tep_N p)) PARAMETERS
                  = true).
    { apply existsb_exists. exists p. split; [exact Hp | exact E]. }
    rewrite Hex. reflexivity.
  - rewrite andb_false_r. reflexivity.
Qed.

(** ** More on the experiment list *)

(** X18: the list is in repetition-major order: repetition by repetition,
    within a repetition configuration by configuration, and for each
    configuration the correlation attack first and then the logistic
    regression attacks in the order of [TRANSFORMATIONS]. *)
Theorem experiments_order (name : string) (samples : nat)
    (ps : list TableEntryParameters) :
  experiments_of name samples ps
  = flat_map
      (fun i =>
         flat_map
           (fun p =>
              ExperimentCorrelationAttack name (common p (Z.of_nat i)) 1000
              :: map (fun t =>
                        ExperimentLogisticRegression name
                          (common p (Z.of_nat i)) t combiner_xor)
                   TRANSFORMATIONS) ps)
      (seq 0 samples).
Proof.
  unfold experiments_of. rewrite samples_loop_app. reflexivity.
Qed.

(** X19: more repetitions only append: the list for [n + m] repetitions
    starts with the list for [n] repetitions. *)
Theorem experiments_prefix (name : string) (n m : nat)
    (ps : list TableEntryParameters) :
  firstn (n * (List.length ps * 4)) (experiments_of name (n + m) ps)
  = experiments_of name n ps.
Proof.
  rewrite <- (length_experiments_of name n ps).
  rewrite (experiments_of_blocks name (n + m)), seq_app, flat_map_app.
  rewrite <- (experiments_of_blocks name n).
  rewrite firstn_app, Nat.sub_diag, firstn_all. simpl.
  apply app_nil_r.
Qed.

(** X20: with at most 48801 repetitions no seed of one role is a seed of
    another role, whatever the two repetitions; with more repetitions and a
    configuration, an instance seed is also a model seed. *)
Theorem seed_streams (name : string) (samples : nat)
    (ps : list TableEntryParameters) :
  (Z.of_nat samples <= 48801 ->
   forall e1 e2,
     In e1 (experiments_of name samples ps) ->
     In e2 (experiments_of name samples ps) ->
     seed_instance (common_of e1) <> seed_model (common_of e2)
     /\ seed_instance (common_of e1) <> seed_challenge (common_of e2)
     /\ seed_instance (common_of e1) <> seed_distance (common_of e2)
     /\ seed_model (common_of e1) <> seed_challenge (common_of e2)
     /\ seed_model (common_of e1) <> seed_distance (common_of e2)
     /\ seed_challenge (common_of e1) <> seed_distance (common_of e2))
  /\ (48801 < Z.of_nat samples -> ps <> [] ->
      exists e1 e2,
        In e1 (experiments_of name samples ps)
        /\ In e2 (experiments_of name samples ps)
        /\ seed_instance (common_of e1) = seed_model (common_of e2)).
Proof.
  split.
  - intros Hs e1 e2 H1 H2.
    apply in_experiments_of in H1, H2.
    destruct H1 as [i1 [p1 [Hi1 [_ He1]]]].
    destruct H2 as [i2 [p2 [Hi2 [_ He2]]]].
    assert (Hc1 : common_of e1 = common p1 i1)
      by (destruct He1 as [-> | [t [_ ->]]]; reflexivity).
    assert (Hc2 : common_of e2 = common p2 i2)
      by (destruct He2 as [-> | [t [_ ->]]]; reflexivity).
    rewrite Hc1, Hc2.
    cbn [common seed_instance seed_model seed_challenge seed_distance].
    repeat split; lia.
  - intros Hs Hps. destruct ps as [| p ps']; [congruence |].
    exists (ExperimentCorrelationAttack name (common p 0) 1000),
           (ExperimentCorrelationAttack name (common p 48801) 1000).
    split; [| split; [| reflexivity]]; apply in_experiments_of.
    + exists 0, p. split; [lia |]. split; [left; reflexivity |].
      left. reflexivity.
    + exists 48801, p. split; [lia |]. split; [left; reflexivity |].
      left. reflexivity.
Qed.

Lemma seed_streams_witness :
  let p := mk_entry 64 5 300000 None EmptyString in
  let e1 := ExperimentCorrelationAttack "study" (common p 0) 1000 in
  let e2 := ExperimentLogisticRegression "study" (common p 1) transform_atf
              combiner_xor in
  Z.of_nat 2 <= 48801
  /\ In e1 (experiments_of "study" 2 [p])
  /\ In e2 (experiments_of "study" 2 [p])
  /\ seed_instance (common_of e1) <> seed_model (common_of e2).
Proof.
  intros p e1 e2.
  assert (Hs : Z.of_nat 2 <= 48801) by (simpl; lia).
  assert (H1 : In e1 (experiments_of "study" 2 [p])) by (left; reflexivity).
  assert (H2 : In e2 (experiments_of "study" 2 [p]))
    by (do 5 right; left; reflexivity).
  split; [exact Hs |]. split; [exact H1 |]. split; [exact H2 |].
  exact (proj1 (proj1 (seed_streams "study" 2 [p]) Hs e1 e2 H1 H2)).
Defined.
